(** * The [Models] construct of lib/models/index.ts

    A shallow embedding of the CDK construct [Models] and of the JavaScript
    primitives its constructor uses ([String.prototype.split],
    [Array.prototype.join], [Array.prototype.includes], template literals,
    [JSON.stringify]), followed by the properties of the construct. *)

From Stdlib Require Import String Ascii List ZArith Bool Lia.
From Stdlib Require Import Numbers.DecimalString.
Import ListNotations.
Open Scope string_scope.
Open Scope list_scope.

(** ** JavaScript strings *)

Module JS.

(** [s.startsWith(p)], the test [split] makes at every position. *)
Fixpoint startsWith (s p : string) : bool :=
  match p, s with
  | EmptyString, _ => true
  | String _ _, EmptyString => false
  | String a p', String b s' => Ascii.eqb a b && startsWith s' p'
  end.

(** The scan of [String.prototype.split] for a non-empty separator: [skip]
    counts the code units of a separator occurrence still to be passed over,
    [piece] is the substring collected since the last occurrence. *)
Fixpoint split_scan (sep s : string) (skip : nat) (piece : string) : list string :=
  match s with
  | EmptyString => [piece]
  | String c rest =>
      match skip with
      | S k => split_scan sep rest k piece
      | O =>
          if startsWith s sep
          then piece :: split_scan sep rest (String.length sep - 1) EmptyString
          else split_scan sep rest 0 (piece ++ String c EmptyString)%string
      end
  end.

(** [s.split("")]: one string per code unit. *)
Fixpoint split_units (s : string) : list string :=
  match s with
  | EmptyString => []
  | String c rest => String c EmptyString :: split_units rest
  end.

(** [s.split(sep)] with a string separator and no limit. *)
Definition split (s sep : string) : list string :=
  match sep with
  | EmptyString => split_units s
  | String _ _ => split_scan sep s 0 EmptyString
  end.

(** [l.join(sep)] on an array of strings. *)
Fixpoint join (l : list string) (sep : string) : string :=
  match l with
  | [] => EmptyString
  | [x] => x
  | x :: rest => (x ++ sep ++ join rest sep)%string
  end.

(** Truthiness of a string: every string but the empty one. *)
Definition truthy_string (s : string) : bool :=
  match s with
  | EmptyString => false
  | String _ _ => true
  end.

End JS.

(** ** Values of TypeScript enums

    An enum of TypeScript is erased to its members' values, each a string or a
    number (an integer here, as enum members are numbered). *)

Inductive EnumValue : Type :=
| EnumString (s : string)
| EnumNumber (n : Z).

Definition EnumValue_eqb (a b : EnumValue) : bool :=
  match a, b with
  | EnumString s, EnumString t => String.eqb s t
  | EnumNumber n, EnumNumber m => Z.eqb n m
  | _, _ => false
  end.

(** [l.includes(x)] on an array of enum values. *)
Definition includes (l : list EnumValue) (x : EnumValue) : bool :=
  existsb (fun y => EnumValue_eqb y x) l.

(** ** JSON.stringify *)

Module JSON.

(** The values the constructor hands to [JSON.stringify]. A property of an
    object literal may hold [undefined] ([None]); [JSON.stringify] leaves such
    a property out. *)
#[warnings="-register-all"]
Inductive value : Type :=
| Null
| Bool (b : bool)
| Number (n : Z)
| Str (s : string)
| Array (items : list value)
| Object (props : list (string * option value)).

Definition dquote : ascii := ascii_of_nat 34.
Definition backslash : ascii := ascii_of_nat 92.

Definition hex_digit (n : nat) : ascii :=
  if Nat.ltb n 10 then ascii_of_nat (48 + n) else ascii_of_nat (87 + n).

(** One code unit of a string, as QuoteJSONString writes it. *)
Definition quote_unit (c : ascii) : string :=
  let n := nat_of_ascii c in
  if Nat.eqb n 8 then String backslash "b"
  else if Nat.eqb n 9 then String backslash "t"
  else if Nat.eqb n 10 then String backslash "n"
  else if Nat.eqb n 12 then String backslash "f"
  else if Nat.eqb n 13 then String backslash "r"
  else if Nat.eqb n 34 then String backslash (String dquote EmptyString)
  else if Nat.eqb n 92 then String backslash (String backslash EmptyString)
  else if Nat.ltb n 32 then
    String backslash
      ("u00" ++ String (hex_digit (n / 16)) (String (hex_digit (n mod 16)) EmptyString))
  else String c EmptyString.

Fixpoint quote_units (s : string) : string :=
  match s with
  | EmptyString => EmptyString
  | String c rest => (quote_unit c ++ quote_units rest)%string
  end.

Definition quote (s : string) : string :=
  String dquote (quote_units s ++ String dquote EmptyString).

(** An integer as Number::toString prints it (integers below 10^21 print
    in plain decimal notation). *)
Definition number_to_string (n : Z) : string :=
  NilEmpty.string_of_int (Z.to_int n).

(** The elements of an array or the members of an object, comma-separated. *)
Fixpoint commas (l : list string) : string :=
  match l with
  | [] => EmptyString
  | [x] => x
  | x :: rest => (x ++ "," ++ commas rest)%string
  end.

(** [JSON.stringify(v)] with no replacer and no indentation. *)
Fixpoint stringify (v : value) : string :=
  match v with
  | Null => "null"
  | Bool true => "true"
  | Bool false => "false"
  | Number n => number_to_string n
  | Str s => quote s
  | Array items => "[" ++ commas (map stringify items) ++ "]"
  | Object props =>
      let fix members (ps : list (string * option value)) : list string :=
        match ps with
        | [] => []
        | (k, Some v') :: rest => (quote k ++ ":" ++ stringify v')%string :: members rest
        | (_, None) :: rest => members rest
        end in
      "{" ++ commas (members props) ++ "}"
  end.

(** The keys [JSON.stringify] writes for an object: those of the properties
    that are not [undefined], in property order. *)
Definition written_keys (props : list (string * option value)) : list string :=
  flat_map (fun p : string * option value =>
              match snd p with Some _ => [fst p] | None => [] end) props.

(** The value of property [k] of an object, when it is written. *)
Fixpoint member (k : string) (props : list (string * option value)) : option value :=
  match props with
  | [] => None
  | (k', v) :: rest => if String.eqb k' k then v else member k rest
  end.

Definition of_enum (e : EnumValue) : value :=
  match e with
  | EnumString s => Str s
  | EnumNumber n => Number n
  end.

End JSON.

(** ** The construct tree and the SDK's objects

    The SDK (aws-cdk-lib, cdk-nag, @cdklabs/generative-ai-cdk-constructs) is
    not part of the repository. An object it hands back is identified with the
    call that made it; what the constructor reads from such an object is its
    [role], its [cfnEndpoint] and the endpoint's [endpointName]. *)

Record Construct : Type := { node_path : list string }.

(** The construct [new C(scope, id)] makes below [scope]. *)
Definition child (scope : Construct) (id : string) : Construct :=
  {| node_path := node_path scope ++ [id] |}.

(** The members of the library's enums that the constructor names. *)
Inductive JumpStartModel : Type :=
| HUGGINGFACE_LLM_AMAZON_FALCONLITE2_1_1_0
| HUGGINGFACE_LLM_HUGGINGFACEH4_ZEPHYR_7B_BETA_1_1_0.

Inductive SageMakerInstanceType : Type :=
| ML_G5_48XLARGE
| ML_G5_24XLARGE.

Record JumpStartSageMakerEndpointProps : Type := {
  model : JumpStartModel;
  instanceType : SageMakerInstanceType;
  instanceCount : option Z;
  endpointName : option string;
  environment : option (list (string * string))
}.

Record JumpStartSageMakerEndpoint : Type := {
  jse_scope : Construct;
  jse_id : string;
  jse_props : JumpStartSageMakerEndpointProps
}.

(** [e.cfnEndpoint] *)
Inductive CfnEndpoint : Type :=
| cfnEndpoint (e : JumpStartSageMakerEndpoint).

Inductive ServicePrincipal : Type :=
| ServicePrincipal_new (service : string).

Record RoleProps : Type := {
  assumedBy : ServicePrincipal;
  description : option string
}.

(** [e.role], or a role made by [new iam.Role(scope, id, props)]. *)
Inductive Role : Type :=
| role (e : JumpStartSageMakerEndpoint)
| Role_new (scope : Construct) (id : string) (props : RoleProps).

Inductive ManagedPolicy : Type :=
| fromAwsManagedPolicyName (managedPolicyName : string).

Inductive Secret : Type :=
| fromSecretCompleteArn (scope : Construct) (id : string) (secretCompleteArn : string).

Record NagPackSuppression : Type := {
  nag_id : string;
  nag_reason : string
}.

Record StringParameterProps : Type := { stringValue : string }.

Record StringParameter : Type := {
  sp_scope : Construct;
  sp_id : string;
  sp_props : StringParameterProps
}.

(** ** The types of ../shared/types

    The declarations are not among the sources. [SystemConfig] is modelled
    with the fields the constructor reads, each as optional as the
    constructor's accesses have it ([llms] is read without a guard on line
    40, and [sagemaker] on lines 45 and 84: both are always there);
    [SageMakerModelEndpoint] with the fields
    of the object literals pushed to [models]. The enums [Modality],
    [ModelInterface] and [SupportedSageMakerModels] are [EnumValue]s. *)

Record SagemakerSchedule : Type := { enabled : option bool }.

Record Llms : Type := {
  sagemaker : list EnumValue;
  huggingfaceApiSecretArn : option string;
  sagemakerSchedule : option SagemakerSchedule
}.

Record SystemConfig : Type := { llms : Llms }.

Record Shared : Type := { shared_node : Construct }.

Record SageMakerModelEndpoint : Type := {
  name : string;
  endpoint : CfnEndpoint;
  responseStreamingSupported : bool;
  inputModalities : list EnumValue;
  outputModalities : list EnumValue;
  interface : EnumValue;
  ragSupported : bool
}.

Record ModelsProps : Type := {
  config : SystemConfig;
  shared : Shared
}.

(** The public fields of [Models]. *)
Record Models : Type := {
  models : list SageMakerModelEndpoint;
  modelsParameter : StringParameter
}.

(** [props.config.llms?.sagemakerSchedule?.enabled], as a condition. *)
Definition schedule_enabled (c : SystemConfig) : bool :=
  match sagemakerSchedule (llms c) with
  | Some s => match enabled s with Some b => b | None => false end
  | None => false
  end.

(** ** Synthesis as a sequence of SDK calls *)

(** The calls the constructor makes that reach outside it. The last two are
    the helpers of ./sagemaker-schedule. *)
Inductive SdkCall : Type :=
| Construct_super (scope : Construct) (id : string)
| Secret_fromSecretCompleteArn (scope : Construct) (id : string) (arn : string)
| JumpStartSageMakerEndpoint_new
    (scope : Construct) (id : string) (props : JumpStartSageMakerEndpointProps)
| NagSuppressions_addResourceSuppressions
    (r : Role) (suppressions : list NagPackSuppression) (applyToChildren : bool)
| StringParameter_new (scope : Construct) (id : string) (props : StringParameterProps)
| ServicePrincipal_new_call (service : string)
| Role_new_call (scope : Construct) (id : string) (props : RoleProps)
| ManagedPolicy_fromAwsManagedPolicyName (managedPolicyName : string)
| Role_addManagedPolicy (r : Role) (p : ManagedPolicy)
| createStartSchedule_call
    (scope : Construct) (id : string) (e : CfnEndpoint) (r : Role) (c : SystemConfig)
| createStopSchedule_call
    (scope : Construct) (id : string) (e : CfnEndpoint) (r : Role) (c : SystemConfig).

(** A synthesis-time computation: the calls it makes, in order, and its
    result. [Try body handler k] is [try { body } catch { handler }] followed
    by [k]: the handler runs when the body ends with an error, whatever the
    error, and the statements after the block are outside it. *)
Inductive Synth (A : Type) : Type :=
| Ret (a : A)
| Do (c : SdkCall) (k : Synth A)
| Try (B : Type) (body handler : Synth B) (k : B -> Synth A).

Arguments Ret {A} a.
Arguments Do {A} c k.
Arguments Try {A B} body handler k.

Fixpoint bind {A B : Type} (m : Synth A) (f : A -> Synth B) : Synth B :=
  match m with
  | Ret a => f a
  | Do c k => Do c (bind k f)
  | Try body handler k => Try body handler (fun x => bind (k x) f)
  end.

Declare Scope synth_scope.
Delimit Scope synth_scope with synth.
Notation "x <- m ;; k" := (bind m (fun x => k))
  (at level 100, m at next level, right associativity) : synth_scope.
Notation "m ;; k" := (bind m (fun _ => k))
  (at level 100, right associativity) : synth_scope.
Open Scope synth_scope.

Definition call (c : SdkCall) : Synth unit := Do c (Ret tt).

(** The result of a computation and its calls, in order, when none raises. *)
Fixpoint result {A : Type} (m : Synth A) : A :=
  match m with
  | Ret a => a
  | Do _ k => result k
  | Try body _ k => result (k (result body))
  end.

Fixpoint calls {A : Type} (m : Synth A) : list SdkCall :=
  match m with
  | Ret _ => []
  | Do c k => c :: calls k
  | Try body _ k => calls body ++ calls (k (result body))
  end.

(** Running a computation against an SDK: [raises done c] is the error the
    SDK raises on call [c] after the calls [done] went through, if it raises
    one. An error ends the run and is its outcome, unless it is raised in the
    body of a [Try]: then the handler runs, after the calls of the body that
    went through ([attempted]). *)
Fixpoint run {Error A : Type} (raises : list SdkCall -> SdkCall -> option Error)
    (m : Synth A) (done : list SdkCall) : Error + (A * list SdkCall) :=
  match m with
  | Ret a => inr (a, done)
  | Do c k =>
      match raises done c with
      | Some e => inl e
      | None => run raises k (done ++ [c])
      end
  | Try body handler k =>
      match run raises body done with
      | inr (x, tr) => run raises (k x) tr
      | inl _ =>
          match run raises handler (attempted raises body done) with
          | inr (x, tr) => run raises (k x) tr
          | inl e => inl e
          end
      end
  end
with attempted {Error A : Type} (raises : list SdkCall -> SdkCall -> option Error)
    (m : Synth A) (done : list SdkCall) : list SdkCall :=
  match m with
  | Ret _ => done
  | Do c k =>
      match raises done c with
      | Some _ => done
      | None => attempted raises k (done ++ [c])
      end
  | Try body handler k =>
      match run raises body done with
      | inr (x, tr) => attempted raises (k x) tr
      | inl _ =>
          match run raises handler (attempted raises body done) with
          | inr (x, tr) => attempted raises (k x) tr
          | inl _ => attempted raises handler (attempted raises body done)
          end
      end
  end.

(** A computation with no [Try] in it. *)
Fixpoint no_handler {A : Type} (m : Synth A) : Prop :=
  match m with
  | Ret _ => True
  | Do _ k => no_handler k
  | Try _ _ _ => False
  end.

(** [l.forEach(f)] *)
Fixpoint forEach {A : Type} (l : list A) (f : A -> Synth unit) : Synth unit :=
  match l with
  | [] => Ret tt
  | x :: rest => f x ;; forEach rest f
  end.

(** [new JumpStartSageMakerEndpoint(scope, id, props)] *)
Definition new_JumpStartSageMakerEndpoint (scope : Construct) (id : string)
    (props : JumpStartSageMakerEndpointProps) : Synth JumpStartSageMakerEndpoint :=
  call (JumpStartSageMakerEndpoint_new scope id props) ;;
  Ret {| jse_scope := scope; jse_id := id; jse_props := props |}.

(** [new ssm.StringParameter(scope, id, props)] *)
Definition new_StringParameter (scope : Construct) (id : string)
    (props : StringParameterProps) : Synth StringParameter :=
  call (StringParameter_new scope id props) ;;
  Ret {| sp_scope := scope; sp_id := id; sp_props := props |}.

(** [new iam.ServicePrincipal(service)] *)
Definition new_ServicePrincipal (service : string) : Synth ServicePrincipal :=
  call (ServicePrincipal_new_call service) ;;
  Ret (ServicePrincipal_new service).

(** [new iam.Role(scope, id, props)] *)
Definition new_Role (scope : Construct) (id : string) (props : RoleProps) : Synth Role :=
  call (Role_new_call scope id props) ;;
  Ret (Role_new scope id props).

(** [iam.ManagedPolicy.fromAwsManagedPolicyName(n)] *)
Definition ManagedPolicy_fromName (n : string) : Synth ManagedPolicy :=
  call (ManagedPolicy_fromAwsManagedPolicyName n) ;;
  Ret (fromAwsManagedPolicyName n).

(** [secretsmanager.Secret.fromSecretCompleteArn(scope, id, arn)] *)
Definition Secret_fromArn (scope : Construct) (id arn : string) : Synth Secret :=
  call (Secret_fromSecretCompleteArn scope id arn) ;;
  Ret (fromSecretCompleteArn scope id arn).

(** Modelled from the spec: ./sagemaker-schedule is not among the sources.
    The spec has the constructor "attach start/stop scheduling resources and a
    scheduler role"; a call of [createStartSchedule] attaches one start
    schedule for the endpoint and the role it is given, a call of
    [createStopSchedule] one stop schedule. *)
Definition createStartSchedule (scope : Construct) (id : string) (e : CfnEndpoint)
    (r : Role) (c : SystemConfig) : Synth unit :=
  call (createStartSchedule_call scope id e r c).

Definition createStopSchedule (scope : Construct) (id : string) (e : CfnEndpoint)
    (r : Role) (c : SystemConfig) : Synth unit :=
  call (createStopSchedule_call scope id e r c).

(** ** Reading a sequence of calls *)

(** No call of [cs] raises, when made in order after [done]. *)
Fixpoint quiet {Error : Type} (raises : list SdkCall -> SdkCall -> option Error)
    (done cs : list SdkCall) : Prop :=
  match cs with
  | [] => True
  | c :: rest => raises done c = None /\ quiet raises (done ++ [c]) rest
  end.

(** The roles made by [new iam.Role]. *)
Definition roles_made (tr : list SdkCall) : list Role :=
  flat_map (fun c => match c with
                     | Role_new_call scope id props => [Role_new scope id props]
                     | _ => []
                     end) tr.

(** The start schedules attached, each with its endpoint and its role. *)
Definition start_schedules (tr : list SdkCall) : list (CfnEndpoint * Role) :=
  flat_map (fun c => match c with
                     | createStartSchedule_call _ _ e r _ => [(e, r)]
                     | _ => []
                     end) tr.

(** The stop schedules attached, each with its endpoint and its role. *)
Definition stop_schedules (tr : list SdkCall) : list (CfnEndpoint * Role) :=
  flat_map (fun c => match c with
                     | createStopSchedule_call _ _ e r _ => [(e, r)]
                     | _ => []
                     end) tr.

(** The string parameters made, each with its id and its value. *)
Definition string_parameters (tr : list SdkCall) : list (string * string) :=
  flat_map (fun c => match c with
                     | StringParameter_new _ id props => [(id, stringValue props)]
                     | _ => []
                     end) tr.

(** The objects of a JSON array whose [name] is the string [n]. *)
Definition named (n : string) (objs : list JSON.value) : list JSON.value :=
  filter (fun o => match o with
                   | JSON.Object ps =>
                       match JSON.member "name" ps with
                       | Some (JSON.Str s) => String.eqb s n
                       | _ => false
                       end
                   | _ => false
                   end) objs.

(** The name as the spec words it: every "/" and every "." of the model
    identifier replaced by "-". *)
Fixpoint replace_slash_dot (s : string) : string :=
  match s with
  | EmptyString => EmptyString
  | String c rest =>
      String (if Ascii.eqb c "/" || Ascii.eqb c "." then "-"%char else c)
             (replace_slash_dot rest)
  end.

(** One character replaced throughout a string. *)
Fixpoint replace_unit (c r : ascii) (s : string) : string :=
  match s with
  | EmptyString => EmptyString
  | String a rest => String (if Ascii.eqb c a then r else a) (replace_unit c r rest)
  end.

(** The keys of a serialized descriptor, as the spec lists them. *)
Definition descriptor_keys : list string :=
  ["name"; "endpoint"; "responseStreamingSupported"; "inputModalities";
   "outputModalities"; "interface"; "ragSupported"].

(** ** The constructor of [Models] *)

(** Lines 47-51 and 86-90: the model identifiers and the endpoint names
    derived from them. *)
Definition FALCON_LITE_2_MODEL_ID : string := "Amazon/FalconLite2".

Definition FALCON_LITE_2_ENDPOINT_NAME : string :=
  JS.join (JS.split (JS.join (JS.split FALCON_LITE_2_MODEL_ID "/") "-") ".") "-".

Definition ZEPHYR_7B_MODEL_ID : string := "HuggingFaceH4/zephyr-7b-beta".

Definition ZEPHYR_7B_ENDPOINT_NAME : string :=
  JS.join (JS.split (JS.join (JS.split ZEPHYR_7B_MODEL_ID "/") "-") ".") "-".

(** Lines 53-67: the properties of the Falcon-Lite2 endpoint. *)
Definition falcon_lite_2_props : JumpStartSageMakerEndpointProps :=
  {| model := HUGGINGFACE_LLM_AMAZON_FALCONLITE2_1_1_0;
     instanceType := ML_G5_48XLARGE;
     instanceCount := Some 3%Z;
     endpointName := Some FALCON_LITE_2_ENDPOINT_NAME;
     environment := Some
       [ ("MAX_INPUT_TOKENS", JSON.stringify (JSON.Number 10000));
         ("MAX_TOTAL_TOKENS", JSON.stringify (JSON.Number 24000));
         ("MAX_BATCH_TOTAL_TOKENS", JSON.stringify (JSON.Number 24000));
         ("SM_NUM_GPUS", JSON.stringify (JSON.Number 4));
         ("MAX_CONCURRENT_REQUESTS", JSON.stringify (JSON.Number 4));
         ("SAGEMAKER_STREAMING_ENABLED", "true");
         ("SAGEMAKER_CONTAINER_LOG_LEVEL", "INFO") ] |}.

(** Lines 92-97: the properties of the Zephyr7b endpoint. *)
Definition zephyr7b_props : JumpStartSageMakerEndpointProps :=
  {| model := HUGGINGFACE_LLM_HUGGINGFACEH4_ZEPHYR_7B_BETA_1_1_0;
     instanceType := ML_G5_24XLARGE;
     instanceCount := Some 3%Z;
     endpointName := Some ZEPHYR_7B_ENDPOINT_NAME;
     environment := None |}.

(** Lines 146-163. *)
Definition suppressCdkNagWarningForEndpointRole (r : Role) : Synth unit :=
  call (NagSuppressions_addResourceSuppressions r
          [ {| nag_id := "AwsSolutions-IAM4";
               nag_reason := "Gives user ability to deploy and delete endpoints from the UI." |};
            {| nag_id := "AwsSolutions-IAM5";
               nag_reason := "Gives user ability to deploy and delete endpoints from the UI." |} ]
          true).

(** Lines 39-42: the lookup of the token secret, which nothing reads. *)
Definition hfTokenSecret_lookup (this : Construct) (props : ModelsProps)
  : Synth (option Secret) :=
  match huggingfaceApiSecretArn (llms (config props)) with
  | Some arn =>
      if JS.truthy_string arn
      then (s <- Secret_fromArn this "HFTokenSecret" arn ;; Ret (Some s))
      else Ret None
  | None => Ret None
  end.

(** Lines 129-143: the scheduling block. *)
Definition scheduling_block (this : Construct) (id : string) (props : ModelsProps)
    (models : list SageMakerModelEndpoint) : Synth unit :=
  if (0 <? List.length models)%nat && schedule_enabled (config props)
  then
    principal <- new_ServicePrincipal "scheduler.amazonaws.com" ;;
    schedulerRole <-
      new_Role this "SchedulerRole"
        {| assumedBy := principal;
           description := Some "Role for Scheduler to interact with SageMaker" |} ;;
    policy <- ManagedPolicy_fromName "AmazonSageMakerFullAccess" ;;
    call (Role_addManagedPolicy schedulerRole policy) ;;
    suppressCdkNagWarningForEndpointRole schedulerRole ;;
    forEach models (fun model =>
      createStartSchedule this id (endpoint model) schedulerRole (config props) ;;
      createStopSchedule this id (endpoint model) schedulerRole (config props))
  else Ret tt.

(** The objects the SDK hands back for the two endpoints below [this]. *)
Definition falcon_lite_2_endpoint (this : Construct) : JumpStartSageMakerEndpoint :=
  {| jse_scope := this; jse_id := "Falcon-Lite2"; jse_props := falcon_lite_2_props |}.

Definition zephyr7b_endpoint (this : Construct) : JumpStartSageMakerEndpoint :=
  {| jse_scope := this; jse_id := "Zephyr7b"; jse_props := zephyr7b_props |}.

(** The scheduler role the scheduling block makes below [this]. *)
Definition scheduler_role (this : Construct) : Role :=
  Role_new this "SchedulerRole"
    {| assumedBy := ServicePrincipal_new "scheduler.amazonaws.com";
       description := Some "Role for Scheduler to interact with SageMaker" |}.

(** ** Further readings of a sequence of calls *)

(** The endpoint [e.cfnEndpoint] belongs to. *)
Definition endpoint_owner (e : CfnEndpoint) : JumpStartSageMakerEndpoint :=
  match e with
  | cfnEndpoint j => j
  end.

(** A descriptor without the place of its endpoint in the construct tree:
    its name, the id and the properties of its endpoint, and its other
    fields. *)
Definition descriptor_data (d : SageMakerModelEndpoint)
  : string * string * JumpStartSageMakerEndpointProps * bool
    * list EnumValue * list EnumValue * EnumValue * bool :=
  (name d, jse_id (endpoint_owner (endpoint d)),
   jse_props (endpoint_owner (endpoint d)), responseStreamingSupported d,
   inputModalities d, outputModalities d, interface d, ragSupported d).

(** The endpoints made by [new JumpStartSageMakerEndpoint]. *)
Definition endpoints_made (tr : list SdkCall) : list JumpStartSageMakerEndpoint :=
  flat_map (fun c => match c with
                     | JumpStartSageMakerEndpoint_new scope id props =>
                         [ {| jse_scope := scope; jse_id := id; jse_props := props |} ]
                     | _ => []
                     end) tr.

(** The secrets looked up by [Secret.fromSecretCompleteArn]. *)
Definition secrets_looked_up (tr : list SdkCall) : list Secret :=
  flat_map (fun c => match c with
                     | Secret_fromSecretCompleteArn scope id arn =>
                         [fromSecretCompleteArn scope id arn]
                     | _ => []
                     end) tr.

(** The calls of [NagSuppressions.addResourceSuppressions]: the role, the
    ids suppressed and the applyToChildren flag of each. *)
Definition suppressions_added (tr : list SdkCall) : list (Role * list string * bool) :=
  flat_map (fun c => match c with
                     | NagSuppressions_addResourceSuppressions r l b =>
                         [(r, map nag_id l, b)]
                     | _ => []
                     end) tr.

(** The calls of [createStartSchedule] and [createStopSchedule], as made. *)
Definition schedule_calls (tr : list SdkCall) : list SdkCall :=
  filter (fun c => match c with
                   | createStartSchedule_call _ _ _ _ _ => true
                   | createStopSchedule_call _ _ _ _ _ => true
                   | _ => false
                   end) tr.

(** The constructs made directly below a scope, each with its scope and its
    id: the secrets, the endpoints, the string parameters and the roles. *)
Definition constructs_made (tr : list SdkCall) : list (Construct * string) :=
  flat_map (fun c => match c with
                     | Secret_fromSecretCompleteArn scope id _ => [(scope, id)]
                     | JumpStartSageMakerEndpoint_new scope id _ => [(scope, id)]
                     | StringParameter_new scope id _ => [(scope, id)]
                     | Role_new_call scope id _ => [(scope, id)]
                     | _ => []
                     end) tr.

(** ** A concrete SDK and concrete configurations

    An SDK whose endpoints are named "jumpstart-" followed by the
    [endpointName] of their properties, as the constructs library names them
    ('jumpstart-' + props.endpointName), with string values for the enums;
    one that raises nothing, one that refuses every secret ARN, and one that
    refuses the ARNs that do not start with "arn:". *)

Module Demo.

Definition Text : EnumValue := EnumString "TEXT".
Definition LangChain : EnumValue := EnumString "langchain".
Definition FalconLite2 : EnumValue := EnumString "FalconLite2".
Definition Zephyr7b : EnumValue := EnumString "Zephyr7b".

Definition endpointName_of (e : CfnEndpoint) : option string :=
  match e with
  | cfnEndpoint j =>
      Some ("jumpstart-"
            ++ match endpointName (jse_props j) with
               | Some n => n
               | None => "undefined"
               end)%string
  end.

Definition no_error : list SdkCall -> SdkCall -> option string :=
  fun _ _ => None.

Definition refuses_secret : list SdkCall -> SdkCall -> option string :=
  fun _ c =>
    match c with
    | Secret_fromSecretCompleteArn _ _ _ => Some "not a complete secret ARN"
    | _ => None
    end.

Definition refuses_malformed_arn : list SdkCall -> SdkCall -> option string :=
  fun _ c =>
    match c with
    | Secret_fromSecretCompleteArn _ _ arn =>
        if JS.startsWith arn "arn:" then None
        else Some "ARNs must start with arn: and have at least 6 components"
    | _ => None
    end.

(** An SDK that raises on every call. *)
Definition always_raises : list SdkCall -> SdkCall -> option string :=
  fun _ _ => Some "refused".

Definition app : Construct := {| node_path := ["App"] |}.

Definition stage : Construct := {| node_path := ["App"; "Stage"] |}.

Definition props_of (sm : list EnumValue) (arn : option string) (schedule : bool)
  : ModelsProps :=
  {| config :=
       {| llms := {| sagemaker := sm;
                     huggingfaceApiSecretArn := arn;
                     sagemakerSchedule := Some {| enabled := Some schedule |} |} |};
     shared := {| shared_node := app |} |}.

(** Both models, a token secret, scheduling on. *)
Definition both : ModelsProps :=
  props_of [Zephyr7b; FalconLite2]
    (Some "arn:aws:secretsmanager:eu-west-1:111122223333:secret:hf-token-AbCdEf") true.

(** Zephyr7b alone, no token secret, scheduling on. *)
Definition zephyr_only : ModelsProps := props_of [Zephyr7b] None true.

(** No supported model, scheduling on. *)
Definition no_model : ModelsProps :=
  props_of [EnumString "Mistral7b"] None true.

(** Both models, scheduling off. *)
Definition unscheduled : ModelsProps := props_of [FalconLite2; Zephyr7b] None false.

(** Both models, no sagemakerSchedule at all. *)
Definition never_scheduled : ModelsProps :=
  {| config := {| llms := {| sagemaker := [FalconLite2; Zephyr7b];
                             huggingfaceApiSecretArn := None;
                             sagemakerSchedule := None |} |};
     shared := {| shared_node := app |} |}.

(** Falcon-Lite2 alone, an empty string for the secret ARN. *)
Definition empty_arn : ModelsProps := props_of [FalconLite2] (Some EmptyString) true.

(** Both models, a secret ARN that is no ARN, scheduling on. *)
Definition malformed_arn : ModelsProps :=
  props_of [FalconLite2; Zephyr7b] (Some "hf-token") true.

(** The configuration of [both], with another shared object. *)
Definition both_on_stage : ModelsProps :=
  {| config := config both; shared := {| shared_node := stage |} |}.

(** The sagemaker list of [both] in another order, with a repetition. *)
Definition reordered : ModelsProps :=
  props_of [FalconLite2; Zephyr7b; FalconLite2] None false.

End Demo.

Section ModelsConstruct.

(** The values of the enum members of ../shared/types the constructor names. *)
Variables Modality_Text ModelInterface_LangChain : EnumValue.
Variables SupportedSageMakerModels_FalconLite2 SupportedSageMakerModels_Zephyr7b : EnumValue.

(** [e.endpointName], for an endpoint [e] the SDK made. *)
Variable CfnEndpoint_endpointName : CfnEndpoint -> option string.

(** Lines 71-79: the descriptor pushed for Falcon-Lite2. *)
Definition falcon_lite_2_descriptor (falcon_lite_2 : JumpStartSageMakerEndpoint)
  : SageMakerModelEndpoint :=
  {| name := "jumpstart-" ++ FALCON_LITE_2_ENDPOINT_NAME;
     endpoint := cfnEndpoint falcon_lite_2;
     responseStreamingSupported := true;
     inputModalities := [Modality_Text];
     outputModalities := [Modality_Text];
     interface := ModelInterface_LangChain;
     ragSupported := true |}.

(** Lines 101-109: the descriptor pushed for Zephyr7b. *)
Definition zephyr7b_descriptor (zephyr7b : JumpStartSageMakerEndpoint)
  : SageMakerModelEndpoint :=
  {| name := "jumpstart-" ++ ZEPHYR_7B_ENDPOINT_NAME;
     endpoint := cfnEndpoint zephyr7b;
     responseStreamingSupported := false;
     inputModalities := [Modality_Text];
     outputModalities := [Modality_Text];
     interface := ModelInterface_LangChain;
     ragSupported := true |}.

(** Lines 44-80: the FalconLite2 branch. *)
Definition FalconLite2_branch (this : Construct) (props : ModelsProps)
    (models : list SageMakerModelEndpoint) : Synth (list SageMakerModelEndpoint) :=
  if includes (sagemaker (llms (config props))) SupportedSageMakerModels_FalconLite2
  then
    falcon_lite_2 <- new_JumpStartSageMakerEndpoint this "Falcon-Lite2" falcon_lite_2_props ;;
    suppressCdkNagWarningForEndpointRole (role falcon_lite_2) ;;
    Ret (models ++ [falcon_lite_2_descriptor falcon_lite_2])
  else Ret models.

(** Lines 83-110: the Zephyr7b branch. *)
Definition Zephyr7b_branch (this : Construct) (props : ModelsProps)
    (models : list SageMakerModelEndpoint) : Synth (list SageMakerModelEndpoint) :=
  if includes (sagemaker (llms (config props))) SupportedSageMakerModels_Zephyr7b
  then
    zephyr7b <- new_JumpStartSageMakerEndpoint this "Zephyr7b" zephyr7b_props ;;
    suppressCdkNagWarningForEndpointRole (role zephyr7b) ;;
    Ret (models ++ [zephyr7b_descriptor zephyr7b])
  else Ret models.

(** Lines 114-122: the object literal that [models.map] builds. *)
Definition descriptor_json (m : SageMakerModelEndpoint) : JSON.value :=
  JSON.Object
    [ ("name", Some (JSON.Str (name m)));
      ("endpoint", option_map JSON.Str (CfnEndpoint_endpointName (endpoint m)));
      ("responseStreamingSupported", Some (JSON.Bool (responseStreamingSupported m)));
      ("inputModalities", Some (JSON.Array (map JSON.of_enum (inputModalities m))));
      ("outputModalities", Some (JSON.Array (map JSON.of_enum (outputModalities m))));
      ("interface", Some (JSON.of_enum (interface m)));
      ("ragSupported", Some (JSON.Bool (ragSupported m))) ].

(** Lines 112-124: the parameter. *)
Definition modelsParameter_new (this : Construct) (models : list SageMakerModelEndpoint)
  : Synth StringParameter :=
  new_StringParameter this "ModelsParameter"
    {| stringValue := JSON.stringify (JSON.Array (map descriptor_json models)) |}.

(** Lines 34-144: [new Models(scope, id, props)]. *)
Definition Models_new (scope : Construct) (id : string) (props : ModelsProps)
  : Synth Models :=
  call (Construct_super scope id) ;;
  let this := child scope id in
  let models : list SageMakerModelEndpoint := [] in
  hfTokenSecret <- hfTokenSecret_lookup this props ;;
  models <- FalconLite2_branch this props models ;;
  models <- Zephyr7b_branch this props models ;;
  modelsParameter <- modelsParameter_new this models ;;
  let this_fields := {| models := models; modelsParameter := modelsParameter |} in
  scheduling_block this id props models ;;
  Ret this_fields.

(** A run of the constructor against an SDK, from a construct with no
    children yet. *)
Definition construct {Error : Type} (raises : list SdkCall -> SdkCall -> option Error)
    (scope : Construct) (id : string) (props : ModelsProps)
  : Error + (Models * list SdkCall) :=
  run raises (Models_new scope id props) [].


(** ** The JavaScript primitives at concrete values *)

Example split_join_falcon :
  JS.join (JS.split (JS.join (JS.split "Amazon/FalconLite2" "/") "-") ".") "-"
  = "Amazon-FalconLite2".
Proof. reflexivity. Qed.

Example split_join_zephyr : ZEPHYR_7B_ENDPOINT_NAME = "HuggingFaceH4-zephyr-7b-beta".
Proof. reflexivity. Qed.

Example split_trailing : JS.split "a/b/" "/" = ["a"; "b"; EmptyString].
Proof. reflexivity. Qed.

Example split_long_separator : JS.split "a--b-c" "--" = ["a"; "b-c"].
Proof. reflexivity. Qed.

Example split_empty_separator : JS.split "abc" EmptyString = ["a"; "b"; "c"].
Proof. reflexivity. Qed.

Example stringify_number : JSON.stringify (JSON.Number 10000) = "10000".
Proof. reflexivity. Qed.

Example stringify_zero : JSON.stringify (JSON.Number 0) = "0".
Proof. reflexivity. Qed.

Example stringify_negative : JSON.stringify (JSON.Number (-12)) = "-12".
Proof. reflexivity. Qed.

Example quote_escapes :
  JSON.quote (String (ascii_of_nat 9) (String JSON.dquote (String (ascii_of_nat 1) "a")))
  = String JSON.dquote
      (String JSON.backslash
         ("t" ++ String JSON.backslash
            (String JSON.dquote
               (String JSON.backslash ("u0001a" ++ String JSON.dquote EmptyString)))))%string.
Proof. reflexivity. Qed.

Example stringify_object :
  JSON.stringify (JSON.Object [("a", Some (JSON.Bool true)); ("b", None);
                               ("c", Some (JSON.Array [JSON.Str "x"; JSON.Null]))])
  = ("{" ++ JSON.quote "a" ++ ":true," ++ JSON.quote "c" ++ ":[" ++ JSON.quote "x"
     ++ ",null]}")%string.
Proof. reflexivity. Qed.

(** ** Facts on JavaScript strings *)

Lemma append_empty_r (s : string) : (s ++ EmptyString)%string = s.
Proof. induction s as [|c s IH]; simpl; [reflexivity | now rewrite IH]. Qed.

Lemma append_assoc (a b c : string) : ((a ++ b) ++ c)%string = (a ++ (b ++ c))%string.
Proof. induction a as [|x a IH]; simpl; [reflexivity | now rewrite IH]. Qed.

Lemma startsWith_empty (s : string) : JS.startsWith s EmptyString = true.
Proof. destruct s; reflexivity. Qed.

Lemma split_scan_nonempty (sep s : string) (skip : nat) (piece : string) :
  JS.split_scan sep s skip piece <> [].
Proof.
  revert skip piece. induction s as [|a s IH]; intros skip piece; simpl.
  - discriminate.
  - destruct skip as [|k]; [|apply IH].
    match goal with |- (if ?b then _ else _) <> _ => destruct b end;
      [discriminate | apply IH].
Qed.

Lemma join_cons (x : string) (rest : list string) (sep : string) :
  rest <> [] -> JS.join (x :: rest) sep = (x ++ sep ++ JS.join rest sep)%string.
Proof. destruct rest; [congruence | reflexivity]. Qed.

(** Splitting at a character and joining with another replaces the one by
    the other. *)
Lemma join_split_scan (c r : ascii) (s piece : string) :
  JS.join (JS.split_scan (String c EmptyString) s 0 piece) (String r EmptyString)
  = (piece ++ replace_unit c r s)%string.
Proof.
  revert piece. induction s as [|a s IH]; intros piece.
  - simpl. now rewrite append_empty_r.
  - cbn [JS.split_scan JS.startsWith String.length Nat.sub replace_unit].
    rewrite startsWith_empty, andb_true_r. destruct (Ascii.eqb c a) eqn:E.
    + rewrite join_cons by apply split_scan_nonempty.
      rewrite IH. reflexivity.
    + rewrite IH, append_assoc. reflexivity.
Qed.

Lemma join_split (c r : ascii) (s : string) :
  JS.join (JS.split s (String c EmptyString)) (String r EmptyString) = replace_unit c r s.
Proof. unfold JS.split. now rewrite join_split_scan. Qed.

Lemma replace_unit_twice (s : string) :
  replace_unit "." "-" (replace_unit "/" "-" s) = replace_slash_dot s.
Proof.
  induction s as [|a s IH]; [reflexivity|].
  cbn [replace_unit replace_slash_dot]. rewrite IH. f_equal.
  rewrite (Ascii.eqb_sym a "/"), (Ascii.eqb_sym a ".").
  destruct (Ascii.eqb_spec "/" a) as [<-|N1]; [reflexivity|].
  reflexivity.
Qed.

(** ** Facts on synthesis-time computations *)

Lemma result_bind {A B : Type} (m : Synth A) (f : A -> Synth B) :
  result (bind m f) = result (f (result m)).
Proof.
  revert B f. induction m as [A a|A c k IH|A C body _ handler _ k IH]; intros B f; simpl.
  - reflexivity.
  - apply IH.
  - apply IH.
Qed.

Lemma calls_bind {A B : Type} (m : Synth A) (f : A -> Synth B) :
  calls (bind m f) = calls m ++ calls (f (result m)).
Proof.
  revert B f. induction m as [A a|A c k IH|A C body _ handler _ k IH]; intros B f; simpl.
  - reflexivity.
  - now rewrite IH.
  - now rewrite IH, app_assoc.
Qed.

Lemma no_handler_bind {A B : Type} (m : Synth A) (f : A -> Synth B) :
  no_handler (bind m f) <-> no_handler m /\ no_handler (f (result m)).
Proof.
  revert B f. induction m as [A a|A c k IH|A C body _ handler _ k _]; intros B f; simpl.
  - tauto.
  - apply IH.
  - tauto.
Qed.

Lemma no_handler_forEach {A : Type} (l : list A) (f : A -> Synth unit) :
  (forall x, no_handler (f x)) -> no_handler (forEach l f).
Proof.
  intros H. induction l as [|x l IH]; simpl; [exact I|].
  apply no_handler_bind. auto.
Qed.

Lemma run_inr {Error A : Type} (raises : list SdkCall -> SdkCall -> option Error)
    (m : Synth A) (done : list SdkCall) (a : A) (tr : list SdkCall) :
  no_handler m ->
  run raises m done = inr (a, tr)
  <-> a = result m /\ tr = done ++ calls m /\ quiet raises done (calls m).
Proof.
  revert done a. induction m as [A a0|A c k IH|A C body _ handler _ k _];
    intros done a N; simpl in *.
  - rewrite app_nil_r. split.
    + intros H. inversion H. auto.
    + intros (-> & -> & _). reflexivity.
  - destruct (raises done c) as [e|] eqn:E.
    + split; [discriminate | intros (_ & _ & H & _); discriminate].
    + rewrite (IH _ _ N), <- app_assoc. simpl. tauto.
  - destruct N.
Qed.

Lemma run_inl {Error A : Type} (raises : list SdkCall -> SdkCall -> option Error)
    (m : Synth A) (done : list SdkCall) (e : Error) :
  no_handler m ->
  run raises m done = inl e
  <-> exists pre c post,
        calls m = pre ++ c :: post /\ quiet raises done pre /\ raises (done ++ pre) c = Some e.
Proof.
  revert done. induction m as [A a0|A c k IH|A C body _ handler _ k _];
    intros done N; simpl in *.
  - split; [discriminate|].
    intros (pre & c & post & H & _). destruct pre; discriminate.
  - destruct (raises done c) as [e0|] eqn:E.
    + split.
      * intros H. inversion H; subst e0.
        exists [], c, (calls k). rewrite app_nil_r. simpl. auto.
      * intros ([|c' pre] & c1 & post & H & Q & R); simpl in *.
        -- inversion H; subst c1. rewrite app_nil_r in R. congruence.
        -- inversion H; subst c'. destruct Q as [Q _]. congruence.
    + rewrite (IH _ N). split.
      * intros (pre & c1 & post & H & Q & R).
        exists (c :: pre), c1, post. simpl. rewrite H.
        rewrite <- app_assoc in R. simpl in R. auto.
      * intros ([|c' pre] & c1 & post & H & Q & R); simpl in *.
        -- inversion H; subst c1. rewrite app_nil_r in R. congruence.
        -- inversion H; subst c'. destruct Q as [_ Q].
           exists pre, c1, post. rewrite <- app_assoc. simpl. auto.
  - destruct N.
Qed.

Lemma calls_forEach {A : Type} (l : list A) (f : A -> Synth unit) :
  calls (forEach l f) = flat_map (fun x => calls (f x)) l.
Proof.
  induction l as [|x l IH]; simpl; [reflexivity|].
  now rewrite calls_bind, IH.
Qed.

(** ** The calls and the result of the constructor *)

Lemma FalconLite2_branch_result this props ms :
  result (FalconLite2_branch this props ms)
  = ms ++ (if includes (sagemaker (llms (config props))) SupportedSageMakerModels_FalconLite2
           then [falcon_lite_2_descriptor (falcon_lite_2_endpoint this)] else []).
Proof.
  unfold FalconLite2_branch.
  destruct (includes _ _); simpl; [reflexivity | now rewrite app_nil_r].
Qed.

Lemma Zephyr7b_branch_result this props ms :
  result (Zephyr7b_branch this props ms)
  = ms ++ (if includes (sagemaker (llms (config props))) SupportedSageMakerModels_Zephyr7b
           then [zephyr7b_descriptor (zephyr7b_endpoint this)] else []).
Proof.
  unfold Zephyr7b_branch.
  destruct (includes _ _); simpl; [reflexivity | now rewrite app_nil_r].
Qed.

Lemma Models_new_models scope id props :
  models (result (Models_new scope id props))
  = (if includes (sagemaker (llms (config props))) SupportedSageMakerModels_FalconLite2
     then [falcon_lite_2_descriptor (falcon_lite_2_endpoint (child scope id))] else [])
    ++ (if includes (sagemaker (llms (config props))) SupportedSageMakerModels_Zephyr7b
        then [zephyr7b_descriptor (zephyr7b_endpoint (child scope id))] else []).
Proof.
  unfold Models_new. simpl. repeat (rewrite result_bind; simpl).
  rewrite Zephyr7b_branch_result, FalconLite2_branch_result. reflexivity.
Qed.

Lemma Models_new_parameter scope id props :
  modelsParameter (result (Models_new scope id props))
  = {| sp_scope := child scope id;
       sp_id := "ModelsParameter";
       sp_props :=
         {| stringValue :=
              JSON.stringify
                (JSON.Array (map descriptor_json
                               (models (result (Models_new scope id props))))) |} |}.
Proof.
  unfold Models_new. simpl. repeat (rewrite result_bind; simpl). reflexivity.
Qed.

Lemma Models_new_calls scope id props :
  calls (Models_new scope id props)
  = Construct_super scope id
    :: calls (hfTokenSecret_lookup (child scope id) props)
    ++ calls (FalconLite2_branch (child scope id) props [])
    ++ calls (Zephyr7b_branch (child scope id) props
                (result (FalconLite2_branch (child scope id) props [])))
    ++ StringParameter_new (child scope id) "ModelsParameter"
         (sp_props (modelsParameter (result (Models_new scope id props))))
    :: calls (scheduling_block (child scope id) id props
                (models (result (Models_new scope id props)))).
Proof.
  rewrite Models_new_parameter.
  unfold Models_new. simpl. repeat (rewrite result_bind; simpl).
  repeat (rewrite calls_bind; simpl).
  rewrite app_nil_r. reflexivity.
Qed.

Lemma scheduling_block_calls this id props ms :
  calls (scheduling_block this id props ms)
  = if (0 <? List.length ms)%nat && schedule_enabled (config props)
    then
      [ ServicePrincipal_new_call "scheduler.amazonaws.com";
        Role_new_call this "SchedulerRole"
          {| assumedBy := ServicePrincipal_new "scheduler.amazonaws.com";
             description := Some "Role for Scheduler to interact with SageMaker" |};
        ManagedPolicy_fromAwsManagedPolicyName "AmazonSageMakerFullAccess";
        Role_addManagedPolicy (scheduler_role this)
          (fromAwsManagedPolicyName "AmazonSageMakerFullAccess");
        NagSuppressions_addResourceSuppressions (scheduler_role this)
          [ {| nag_id := "AwsSolutions-IAM4";
               nag_reason := "Gives user ability to deploy and delete endpoints from the UI." |};
            {| nag_id := "AwsSolutions-IAM5";
               nag_reason := "Gives user ability to deploy and delete endpoints from the UI." |} ]
          true ]
      ++ flat_map (fun m =>
           [ createStartSchedule_call this id (endpoint m) (scheduler_role this) (config props);
             createStopSchedule_call this id (endpoint m) (scheduler_role this) (config props) ])
           ms
    else [].
Proof.
  unfold scheduling_block.
  destruct ((0 <? List.length ms)%nat && schedule_enabled (config props)); [|reflexivity].
  simpl. rewrite calls_forEach. reflexivity.
Qed.

Lemma scheduling_block_no_handler this id props ms :
  no_handler (scheduling_block this id props ms).
Proof.
  unfold scheduling_block.
  destruct ((0 <? List.length ms)%nat && schedule_enabled (config props)); [|exact I].
  simpl. apply no_handler_forEach. intros m. exact I.
Qed.

(** The constructor has no try/catch. *)
Lemma Models_new_no_handler scope id props : no_handler (Models_new scope id props).
Proof.
  unfold Models_new.
  apply no_handler_bind. split; [exact I|].
  apply no_handler_bind. split.
  { unfold hfTokenSecret_lookup.
    destruct (huggingfaceApiSecretArn (llms (config props))) as [arn|]; [|exact I].
    destruct (JS.truthy_string arn); exact I. }
  apply no_handler_bind. split.
  { unfold FalconLite2_branch. destruct (includes _ _); exact I. }
  apply no_handler_bind. split.
  { unfold Zephyr7b_branch. destruct (includes _ _); exact I. }
  apply no_handler_bind. split; [exact I|].
  apply no_handler_bind. split; [apply scheduling_block_no_handler | exact I].
Qed.

Lemma construct_inr {Error : Type} (raises : list SdkCall -> SdkCall -> option Error)
    scope id props obj tr :
  construct raises scope id props = inr (obj, tr) ->
  obj = result (Models_new scope id props) /\ tr = calls (Models_new scope id props).
Proof.
  unfold construct. intros H.
  apply run_inr in H; [tauto | apply Models_new_no_handler].
Qed.

(** The constructor returns whenever no call raises. *)
Lemma construct_returns {Error : Type} (raises : list SdkCall -> SdkCall -> option Error)
    scope id props :
  (forall done c, raises done c = None) ->
  construct raises scope id props
  = inr (result (Models_new scope id props), calls (Models_new scope id props)).
Proof.
  intros Q. unfold construct. apply run_inr; [apply Models_new_no_handler|].
  split; [reflexivity|]. split; [reflexivity|].
  generalize (@nil SdkCall).
  induction (calls (Models_new scope id props)) as [|c l IH]; intros done; simpl; auto.
Qed.

(** Every condition of the constructor decided, and the calls read off. *)
Ltac by_cases scope id props :=
  rewrite ?Models_new_calls, ?scheduling_block_calls, ?Models_new_parameter,
    ?Models_new_models;
  unfold hfTokenSecret_lookup, FalconLite2_branch, Zephyr7b_branch;
  destruct (huggingfaceApiSecretArn (llms (config props))) as [arn|];
  [destruct (JS.truthy_string arn)|];
  destruct (includes (sagemaker (llms (config props))) SupportedSageMakerModels_FalconLite2),
    (includes (sagemaker (llms (config props))) SupportedSageMakerModels_Zephyr7b),
    (schedule_enabled (config props)).

Lemma Models_new_roles scope id props :
  roles_made (calls (Models_new scope id props))
  = if (0 <? List.length (models (result (Models_new scope id props))))%nat
       && schedule_enabled (config props)
    then [scheduler_role (child scope id)] else [].
Proof. by_cases scope id props; reflexivity. Qed.

Lemma Models_new_start_schedules scope id props :
  start_schedules (calls (Models_new scope id props))
  = if schedule_enabled (config props)
    then map (fun m => (endpoint m, scheduler_role (child scope id)))
             (models (result (Models_new scope id props)))
    else [].
Proof. by_cases scope id props; reflexivity. Qed.

Lemma Models_new_stop_schedules scope id props :
  stop_schedules (calls (Models_new scope id props))
  = if schedule_enabled (config props)
    then map (fun m => (endpoint m, scheduler_role (child scope id)))
             (models (result (Models_new scope id props)))
    else [].
Proof. by_cases scope id props; reflexivity. Qed.

Lemma Models_new_string_parameters scope id props :
  string_parameters (calls (Models_new scope id props))
  = [ ("ModelsParameter",
       stringValue (sp_props (modelsParameter (result (Models_new scope id props))))) ].
Proof. by_cases scope id props; reflexivity. Qed.

(** ** The serialized parameter *)

(** C5. On every run of the constructor that returns, the value of the
    parameter is the JSON serialization of the array that maps each element
    of [this.models], in order, to an object of the seven descriptor
    properties, where [endpoint] holds the endpoint's name and the other six
    hold the descriptor's own fields; that parameter, under the id
    ModelsParameter, is the only string parameter made. *)
Theorem parameter_serializes_models {Error : Type}
    (raises : list SdkCall -> SdkCall -> option Error) scope id props obj tr :
  construct raises scope id props = inr (obj, tr) ->
  stringValue (sp_props (modelsParameter obj))
  = JSON.stringify (JSON.Array (map descriptor_json (models obj)))
  /\ string_parameters tr
     = [("ModelsParameter", stringValue (sp_props (modelsParameter obj)))]
  /\ forall m, exists ps,
       descriptor_json m = JSON.Object ps
       /\ map fst ps = descriptor_keys
       /\ JSON.member "name" ps = Some (JSON.Str (name m))
       /\ JSON.member "endpoint" ps
          = option_map JSON.Str (CfnEndpoint_endpointName (endpoint m))
       /\ JSON.member "responseStreamingSupported" ps
          = Some (JSON.Bool (responseStreamingSupported m))
       /\ JSON.member "inputModalities" ps
          = Some (JSON.Array (map JSON.of_enum (inputModalities m)))
       /\ JSON.member "outputModalities" ps
          = Some (JSON.Array (map JSON.of_enum (outputModalities m)))
       /\ JSON.member "interface" ps = Some (JSON.of_enum (interface m))
       /\ JSON.member "ragSupported" ps = Some (JSON.Bool (ragSupported m)).
Proof.
  intros H. apply construct_inr in H as [-> ->].
  split; [now rewrite Models_new_parameter|].
  split; [apply Models_new_string_parameters|].
  intros m. eexists. split; [reflexivity|]. repeat split.
Qed.

(** C1. On every run of the constructor that returns, against an SDK whose
    endpoints have an [endpointName] when their properties give one, the
    value of the parameter is the serialization of a JSON array, the objects
    mapped from the elements of [this.models], and the keys written for every
    object are name, endpoint, responseStreamingSupported, inputModalities,
    outputModalities, interface, ragSupported. *)
Theorem parameter_shape {Error : Type}
    (raises : list SdkCall -> SdkCall -> option Error) scope id props obj tr :
  (forall e, endpointName (jse_props e) <> None ->
             CfnEndpoint_endpointName (cfnEndpoint e) <> None) ->
  construct raises scope id props = inr (obj, tr) ->
  exists objs,
    objs = map descriptor_json (models obj)
    /\ stringValue (sp_props (modelsParameter obj)) = JSON.stringify (JSON.Array objs)
    /\ Forall (fun o => exists ps,
                  o = JSON.Object ps /\ JSON.written_keys ps = descriptor_keys) objs.
Proof.
  intros Named H. apply construct_inr in H as [-> ->].
  exists (map descriptor_json (models (result (Models_new scope id props)))).
  split; [reflexivity|].
  split; [now rewrite Models_new_parameter|].
  apply Forall_map. rewrite Models_new_models.
  assert (K : forall m, CfnEndpoint_endpointName (endpoint m) <> None ->
                exists ps, descriptor_json m = JSON.Object ps
                           /\ JSON.written_keys ps = descriptor_keys).
  { intros m Hm. eexists. split; [reflexivity|].
    unfold JSON.written_keys. simpl.
    destruct (CfnEndpoint_endpointName (endpoint m)); [reflexivity | congruence]. }
  apply Forall_app. split.
  - destruct (includes _ SupportedSageMakerModels_FalconLite2); constructor; [|constructor].
    apply K, Named. discriminate.
  - destruct (includes _ SupportedSageMakerModels_Zephyr7b); constructor; [|constructor].
    apply K, Named. discriminate.
Qed.

(** C2. On every run of the constructor that returns, the value of the
    parameter is the serialization of the JSON array mapped from
    [this.models], in which, for each of FalconLite2 and Zephyr7b: when the configuration's sagemaker list
    includes the flag, exactly one object has the model's derived name
    (jumpstart-Amazon-FalconLite2, jumpstart-HuggingFaceH4-zephyr-7b-beta),
    and its inputModalities and outputModalities are [Text] and its
    interface is LangChain; when the list does not include the flag, no
    object has that name. *)
Theorem parameter_has_one_descriptor_per_flag {Error : Type}
    (raises : list SdkCall -> SdkCall -> option Error) scope id props obj tr :
  construct raises scope id props = inr (obj, tr) ->
  exists objs,
    objs = map descriptor_json (models obj)
    /\ stringValue (sp_props (modelsParameter obj)) = JSON.stringify (JSON.Array objs)
    /\ (includes (sagemaker (llms (config props))) SupportedSageMakerModels_FalconLite2 = true ->
        exists ps,
          named "jumpstart-Amazon-FalconLite2" objs = [JSON.Object ps]
          /\ JSON.member "inputModalities" ps = Some (JSON.Array [JSON.of_enum Modality_Text])
          /\ JSON.member "outputModalities" ps = Some (JSON.Array [JSON.of_enum Modality_Text])
          /\ JSON.member "interface" ps = Some (JSON.of_enum ModelInterface_LangChain))
    /\ (includes (sagemaker (llms (config props))) SupportedSageMakerModels_FalconLite2 = false ->
        named "jumpstart-Amazon-FalconLite2" objs = [])
    /\ (includes (sagemaker (llms (config props))) SupportedSageMakerModels_Zephyr7b = true ->
        exists ps,
          named "jumpstart-HuggingFaceH4-zephyr-7b-beta" objs = [JSON.Object ps]
          /\ JSON.member "inputModalities" ps = Some (JSON.Array [JSON.of_enum Modality_Text])
          /\ JSON.member "outputModalities" ps = Some (JSON.Array [JSON.of_enum Modality_Text])
          /\ JSON.member "interface" ps = Some (JSON.of_enum ModelInterface_LangChain))
    /\ (includes (sagemaker (llms (config props))) SupportedSageMakerModels_Zephyr7b = false ->
        named "jumpstart-HuggingFaceH4-zephyr-7b-beta" objs = []).
Proof.
  intros H. apply construct_inr in H as [-> ->].
  exists (map descriptor_json (models (result (Models_new scope id props)))).
  split; [reflexivity|].
  split; [now rewrite Models_new_parameter|].
  rewrite Models_new_models.
  destruct (includes _ SupportedSageMakerModels_FalconLite2),
    (includes _ SupportedSageMakerModels_Zephyr7b);
    repeat split; intros; try discriminate; try reflexivity;
    eexists; repeat split.
Qed.

(** C3. Splitting a string at "/" and joining with "-", then splitting at
    "." and joining with "-", replaces every "/" and every "." of the string
    by "-"; and on every run of the constructor that returns, the descriptors
    of [this.models], each taken with the JumpStart model of its endpoint and
    its name, are: when FalconLite2 is included, the Falcon-Lite2 model named
    "jumpstart-" followed by its identifier Amazon/FalconLite2 with every "/"
    and "." replaced by "-"; then, when Zephyr7b is included, the Zephyr model
    named likewise from HuggingFaceH4/zephyr-7b-beta. The name of a
    descriptor is so decided by the identifier of its own model, whatever the
    scope, the id, the rest of the configuration and the SDK. *)
Theorem name_derived_from_model_id :
  (forall s,
     JS.join (JS.split (JS.join (JS.split s "/") "-") ".") "-" = replace_slash_dot s)
  /\ (forall (Error : Type) (raises : list SdkCall -> SdkCall -> option Error)
             scope id props obj tr,
        construct raises scope id props = inr (obj, tr) ->
        map (fun d => (model (jse_props (endpoint_owner (endpoint d))), name d))
            (models obj)
        = (if includes (sagemaker (llms (config props)))
                SupportedSageMakerModels_FalconLite2
           then [ (HUGGINGFACE_LLM_AMAZON_FALCONLITE2_1_1_0,
                   ("jumpstart-" ++ replace_slash_dot FALCON_LITE_2_MODEL_ID)%string) ]
           else [])
          ++ (if includes (sagemaker (llms (config props)))
                   SupportedSageMakerModels_Zephyr7b
              then [ (HUGGINGFACE_LLM_HUGGINGFACEH4_ZEPHYR_7B_BETA_1_1_0,
                      ("jumpstart-" ++ replace_slash_dot ZEPHYR_7B_MODEL_ID)%string) ]
              else [])).
Proof.
  assert (R : forall s,
    JS.join (JS.split (JS.join (JS.split s "/") "-") ".") "-" = replace_slash_dot s).
  { intros s. rewrite !join_split. apply replace_unit_twice. }
  split; [exact R|].
  intros Error raises scope id props obj tr H.
  apply construct_inr in H as [-> ->].
  rewrite Models_new_models, map_app. f_equal.
  - destruct (includes _ _); [|reflexivity].
    cbn [map falcon_lite_2_descriptor falcon_lite_2_endpoint endpoint endpoint_owner
         jse_props falcon_lite_2_props model name].
    unfold FALCON_LITE_2_ENDPOINT_NAME. now rewrite R.
  - destruct (includes _ _); [|reflexivity].
    cbn [map zephyr7b_descriptor zephyr7b_endpoint endpoint endpoint_owner
         jse_props zephyr7b_props model name].
    unfold ZEPHYR_7B_ENDPOINT_NAME. now rewrite R.
Qed.

(** ** The models list *)


(** C9. On every run of the constructor that returns, for a configuration
    whose sagemaker list includes neither FalconLite2 nor Zephyr7b,
    [this.models] is empty, the value of the parameter is "[]", and no role
    and no start or stop schedule is made, whatever sagemakerSchedule
    says. *)
Theorem nothing_without_flags {Error : Type}
    (raises : list SdkCall -> SdkCall -> option Error) scope id props obj tr :
  construct raises scope id props = inr (obj, tr) ->
  includes (sagemaker (llms (config props))) SupportedSageMakerModels_FalconLite2 = false ->
  includes (sagemaker (llms (config props))) SupportedSageMakerModels_Zephyr7b = false ->
  models obj = []
  /\ stringValue (sp_props (modelsParameter obj)) = "[]"
  /\ roles_made tr = []
  /\ start_schedules tr = []
  /\ stop_schedules tr = [].
Proof.
  intros H HF HZ. apply construct_inr in H as [-> ->].
  rewrite Models_new_roles, Models_new_start_schedules, Models_new_stop_schedules,
    Models_new_parameter, Models_new_models, HF, HZ.
  simpl. destruct (schedule_enabled (config props)); repeat split.
Qed.

(** ** Scheduling *)

(** C4, amended. On every run of the constructor that returns: when
    sagemakerSchedule is enabled and [this.models] is not empty, one role is
    made, the scheduler role, and the start schedules and the stop schedules
    are, in the order of [this.models], one per model, each for that model's
    endpoint and the scheduler role, the endpoints of the models being
    pairwise distinct; when sagemakerSchedule is not enabled or
    [this.models] is empty, no role and no schedule is made. *)
Theorem schedules_when_enabled_and_models {Error : Type}
    (raises : list SdkCall -> SdkCall -> option Error) scope id props obj tr :
  construct raises scope id props = inr (obj, tr) ->
  (schedule_enabled (config props) = true -> models obj <> [] ->
   roles_made tr = [scheduler_role (child scope id)]
   /\ start_schedules tr
      = map (fun m => (endpoint m, scheduler_role (child scope id))) (models obj)
   /\ stop_schedules tr
      = map (fun m => (endpoint m, scheduler_role (child scope id))) (models obj)
   /\ NoDup (map endpoint (models obj)))
  /\ (schedule_enabled (config props) = false \/ models obj = [] ->
      roles_made tr = [] /\ start_schedules tr = [] /\ stop_schedules tr = []).
Proof.
  intros H. apply construct_inr in H as [-> ->].
  rewrite Models_new_roles, Models_new_start_schedules, Models_new_stop_schedules.
  split.
  - intros -> Hne.
    destruct (models (result (Models_new scope id props))) as [|m ms] eqn:E;
      [congruence|].
    rewrite <- E. split; [rewrite E; reflexivity|]. do 2 (split; [reflexivity|]).
    rewrite Models_new_models.
    destruct (includes _ SupportedSageMakerModels_FalconLite2),
      (includes _ SupportedSageMakerModels_Zephyr7b); simpl;
      repeat constructor; simpl; try tauto.
    intros [K | [ ] ]. discriminate K.
  - intros [ -> | -> ]; [|destruct (schedule_enabled (config props))]; simpl.
    + rewrite andb_false_r. auto.
    + auto.
    + auto.
Qed.

(** ** Runs compared *)


(** C10. Two runs of the constructor that return, on the same scope and id
    and on configurations that agree on everything but
    huggingfaceApiSecretArn, give equal [this.models] and equal values of
    the parameter. *)
Theorem secret_arn_without_influence {Error : Type}
    (raises1 raises2 : list SdkCall -> SdkCall -> option Error)
    scope id props1 props2 obj1 tr1 obj2 tr2 :
  sagemaker (llms (config props1)) = sagemaker (llms (config props2)) ->
  sagemakerSchedule (llms (config props1)) = sagemakerSchedule (llms (config props2)) ->
  construct raises1 scope id props1 = inr (obj1, tr1) ->
  construct raises2 scope id props2 = inr (obj2, tr2) ->
  models obj1 = models obj2
  /\ stringValue (sp_props (modelsParameter obj1))
     = stringValue (sp_props (modelsParameter obj2)).
Proof.
  intros S _ H1 H2.
  apply construct_inr in H1 as [-> ->]. apply construct_inr in H2 as [-> ->].
  assert (M : models (result (Models_new scope id props1))
              = models (result (Models_new scope id props2)))
    by (rewrite !Models_new_models, S; reflexivity).
  split; [exact M|]. rewrite !Models_new_parameter, M. reflexivity.
Qed.

(** ** Errors *)

(** C7. The constructor and its helper have no try/catch; on every input,
    if a call of the constructor raises an error after the calls before it
    went through, the run of the constructor ends with that very error; and
    a run that ends with an error ends with the error one of its calls
    raised. *)
Theorem errors_propagate {Error : Type}
    (raises : list SdkCall -> SdkCall -> option Error) scope id props :
  no_handler (Models_new scope id props)
  /\ (forall r, no_handler (suppressCdkNagWarningForEndpointRole r))
  /\ (forall pre c post e,
        calls (Models_new scope id props) = pre ++ c :: post ->
        quiet raises [] pre ->
        raises pre c = Some e ->
        construct raises scope id props = inl e)
  /\ (forall e,
        construct raises scope id props = inl e ->
        exists pre c post,
          calls (Models_new scope id props) = pre ++ c :: post
          /\ quiet raises [] pre
          /\ raises pre c = Some e).
Proof.
  pose proof (Models_new_no_handler scope id props) as N.
  split; [exact N|]. split; [intros r; exact I|]. split.
  - intros pre c post e Hc Hq Hr. unfold construct. apply (run_inl raises _ [] e N).
    exists pre, c, post. auto.
  - intros e H. unfold construct in H. apply (run_inl raises _ [] e N) in H.
    destruct H as (pre & c & post & Hc & Hq & Hr). exists pre, c, post. auto.
Qed.

(** ** Further properties of the constructor *)

Lemma EnumValue_eqb_eq (a b : EnumValue) : EnumValue_eqb a b = true <-> a = b.
Proof.
  destruct a as [s|n], b as [t|m]; simpl; split; intros H;
    try discriminate; try (inversion H; subst).
  - apply String.eqb_eq in H. now subst.
  - apply String.eqb_refl.
  - apply Z.eqb_eq in H. now subst.
  - apply Z.eqb_refl.
Qed.

Lemma includes_In (l : list EnumValue) (x : EnumValue) :
  includes l x = true <-> In x l.
Proof.
  unfold includes. rewrite existsb_exists. split.
  - intros (y & Hy & E). apply EnumValue_eqb_eq in E. now subst.
  - intros H. exists x. split; [exact H | now apply EnumValue_eqb_eq].
Qed.

Lemma includes_same_members (l1 l2 : list EnumValue) (x : EnumValue) :
  (forall y, In y l1 <-> In y l2) -> includes l1 x = includes l2 x.
Proof.
  intros S. destruct (includes l1 x) eqn:E1, (includes l2 x) eqn:E2; try reflexivity.
  - apply includes_In, S, includes_In in E1. congruence.
  - apply includes_In, S, includes_In in E2. congruence.
Qed.

(** X1. On every run of the constructor that returns, the endpoints made
    are, in order, the endpoints of the descriptors of [this.models]: each
    descriptor's endpoint was made by this run and no other endpoint was;
    every one is made below [this] with three instances. *)
Theorem endpoints_are_those_of_models {Error : Type}
    (raises : list SdkCall -> SdkCall -> option Error) scope id props obj tr :
  construct raises scope id props = inr (obj, tr) ->
  endpoints_made tr = map (fun m => endpoint_owner (endpoint m)) (models obj)
  /\ Forall (fun e => jse_scope e = child scope id
                      /\ instanceCount (jse_props e) = Some 3%Z)
            (endpoints_made tr).
Proof.
  intros H. apply construct_inr in H as [-> ->].
  by_cases scope id props; split; try reflexivity; repeat constructor.
Qed.

(** X2. On every run of the constructor that returns, the name of every
    descriptor of [this.models] is "jumpstart-" followed by the endpointName
    its endpoint was made with. *)
Theorem name_is_prefixed_endpoint_name {Error : Type}
    (raises : list SdkCall -> SdkCall -> option Error) scope id props obj tr :
  construct raises scope id props = inr (obj, tr) ->
  Forall (fun m => exists n,
            endpointName (jse_props (endpoint_owner (endpoint m))) = Some n
            /\ name m = ("jumpstart-" ++ n)%string)
         (models obj).
Proof.
  intros H. apply construct_inr in H as [-> ->].
  rewrite Models_new_models.
  destruct (includes _ SupportedSageMakerModels_FalconLite2),
    (includes _ SupportedSageMakerModels_Zephyr7b); simpl;
    repeat constructor; eexists; split; reflexivity.
Qed.

(** X3. On every run of the constructor that returns, against an SDK that
    names an endpoint "jumpstart-" followed by the endpointName of its
    properties, every object of the serialized array has an [endpoint] and a
    [name] that are the same string. *)
Theorem serialized_name_is_endpoint_name {Error : Type}
    (raises : list SdkCall -> SdkCall -> option Error) scope id props obj tr :
  (forall e n, endpointName (jse_props e) = Some n ->
               CfnEndpoint_endpointName (cfnEndpoint e) = Some ("jumpstart-" ++ n)%string) ->
  construct raises scope id props = inr (obj, tr) ->
  Forall (fun o => exists ps n,
            o = JSON.Object ps
            /\ JSON.member "endpoint" ps = Some (JSON.Str n)
            /\ JSON.member "name" ps = Some (JSON.Str n))
         (map descriptor_json (models obj)).
Proof.
  intros Named H. apply construct_inr in H as [-> ->].
  rewrite Models_new_models.
  destruct (includes _ SupportedSageMakerModels_FalconLite2),
    (includes _ SupportedSageMakerModels_Zephyr7b); simpl;
    repeat constructor; eexists; eexists; (split; [reflexivity|]);
    simpl; erewrite Named by reflexivity; split; reflexivity.
Qed.

(** X4. On every run of the constructor that returns, the NagSuppressions
    calls are one per endpoint role of [this.models], in order, followed by
    one per role made; each suppresses AwsSolutions-IAM4 and
    AwsSolutions-IAM5 with applyToChildren set. *)
Theorem every_role_is_suppressed {Error : Type}
    (raises : list SdkCall -> SdkCall -> option Error) scope id props obj tr :
  construct raises scope id props = inr (obj, tr) ->
  suppressions_added tr
  = map (fun r => (r, ["AwsSolutions-IAM4"; "AwsSolutions-IAM5"], true))
        (map (fun m => role (endpoint_owner (endpoint m))) (models obj)
         ++ roles_made tr).
Proof.
  intros H. apply construct_inr in H as [-> ->].
  rewrite Models_new_roles.
  by_cases scope id props; reflexivity.
Qed.

(** X5. On every run of the constructor that returns, a secret is looked up
    exactly when huggingfaceApiSecretArn is a non-empty string, and then it
    is that ARN, once, under the id HFTokenSecret below [this]; a missing or
    empty ARN leads to no lookup. *)
Theorem secret_lookup_needs_nonempty_arn {Error : Type}
    (raises : list SdkCall -> SdkCall -> option Error) scope id props obj tr :
  construct raises scope id props = inr (obj, tr) ->
  (forall arn,
     huggingfaceApiSecretArn (llms (config props)) = Some arn ->
     arn <> EmptyString ->
     secrets_looked_up tr
     = [fromSecretCompleteArn (child scope id) "HFTokenSecret" arn])
  /\ (huggingfaceApiSecretArn (llms (config props)) = None
      \/ huggingfaceApiSecretArn (llms (config props)) = Some EmptyString ->
      secrets_looked_up tr = []).
Proof.
  intros H. apply construct_inr in H as [-> ->].
  rewrite Models_new_calls, scheduling_block_calls, Models_new_models.
  unfold hfTokenSecret_lookup, FalconLite2_branch, Zephyr7b_branch.
  split.
  - intros arn -> Hne. destruct arn as [|a arn]; [congruence|]. simpl.
    destruct (includes _ SupportedSageMakerModels_FalconLite2),
      (includes _ SupportedSageMakerModels_Zephyr7b),
      (schedule_enabled (config props)); reflexivity.
  - intros [ -> | -> ]; simpl;
      destruct (includes _ SupportedSageMakerModels_FalconLite2),
        (includes _ SupportedSageMakerModels_Zephyr7b),
        (schedule_enabled (config props)); reflexivity.
Qed.

(** X6. Two runs of the constructor that return, on the same scope and id
    and on configurations whose sagemaker lists have the same members (in
    any order, with any repetitions), give equal [this.models] and equal
    values of the parameter. *)
Theorem only_membership_of_flags_matters {Error : Type}
    (raises1 raises2 : list SdkCall -> SdkCall -> option Error)
    scope id props1 props2 obj1 tr1 obj2 tr2 :
  (forall x, In x (sagemaker (llms (config props1)))
             <-> In x (sagemaker (llms (config props2)))) ->
  construct raises1 scope id props1 = inr (obj1, tr1) ->
  construct raises2 scope id props2 = inr (obj2, tr2) ->
  models obj1 = models obj2
  /\ stringValue (sp_props (modelsParameter obj1))
     = stringValue (sp_props (modelsParameter obj2)).
Proof.
  intros S H1 H2.
  apply construct_inr in H1 as [-> ->]. apply construct_inr in H2 as [-> ->].
  assert (M : models (result (Models_new scope id props1))
              = models (result (Models_new scope id props2))).
  { rewrite !Models_new_models.
    rewrite (includes_same_members _ _ SupportedSageMakerModels_FalconLite2 S).
    rewrite (includes_same_members _ _ SupportedSageMakerModels_Zephyr7b S).
    reflexivity. }
  split; [exact M|]. rewrite !Models_new_parameter, M. reflexivity.
Qed.

(** X7. On every run of the constructor that returns, the value of the
    parameter is "[]" exactly when [this.models] is empty, which is exactly
    when the sagemaker list includes neither FalconLite2 nor Zephyr7b. *)
Theorem empty_parameter_iff_no_flag {Error : Type}
    (raises : list SdkCall -> SdkCall -> option Error) scope id props obj tr :
  construct raises scope id props = inr (obj, tr) ->
  (stringValue (sp_props (modelsParameter obj)) = "[]" <-> models obj = [])
  /\ (models obj = []
      <-> includes (sagemaker (llms (config props))) SupportedSageMakerModels_FalconLite2
          = false
          /\ includes (sagemaker (llms (config props))) SupportedSageMakerModels_Zephyr7b
             = false).
Proof.
  intros H. apply construct_inr in H as [-> ->].
  rewrite Models_new_parameter, Models_new_models.
  destruct (includes _ SupportedSageMakerModels_FalconLite2),
    (includes _ SupportedSageMakerModels_Zephyr7b); simpl;
    (split; split; intros K; try reflexivity; try discriminate K;
     try (destruct K; discriminate); auto).
Qed.

(** X8. On every run of the constructor that returns, [this.models] has at
    most two descriptors, with pairwise distinct names and pairwise distinct
    endpoints. *)
Theorem at_most_two_distinct_models {Error : Type}
    (raises : list SdkCall -> SdkCall -> option Error) scope id props obj tr :
  construct raises scope id props = inr (obj, tr) ->
  List.length (models obj) <= 2
  /\ NoDup (map name (models obj))
  /\ NoDup (map endpoint (models obj)).
Proof.
  intros H. apply construct_inr in H as [-> ->].
  rewrite Models_new_models.
  destruct (includes _ SupportedSageMakerModels_FalconLite2),
    (includes _ SupportedSageMakerModels_Zephyr7b); simpl;
    (split; [lia|]); split; repeat constructor; simpl; try tauto;
    intros [K | [ ] ]; discriminate K.
Qed.

(** X9. On every run of the constructor that returns, every descriptor of
    [this.models] has ragSupported set, inputModalities and outputModalities
    [Text] and interface LangChain, and responseStreamingSupported is set
    exactly for the descriptor named jumpstart-Amazon-FalconLite2. *)
Theorem descriptors_are_text_langchain_rag {Error : Type}
    (raises : list SdkCall -> SdkCall -> option Error) scope id props obj tr :
  construct raises scope id props = inr (obj, tr) ->
  Forall (fun m =>
            ragSupported m = true
            /\ inputModalities m = [Modality_Text]
            /\ outputModalities m = [Modality_Text]
            /\ interface m = ModelInterface_LangChain
            /\ (responseStreamingSupported m = true
                <-> name m = "jumpstart-Amazon-FalconLite2"))
         (models obj).
Proof.
  intros H. apply construct_inr in H as [-> ->].
  rewrite Models_new_models.
  destruct (includes _ SupportedSageMakerModels_FalconLite2),
    (includes _ SupportedSageMakerModels_Zephyr7b); simpl;
    repeat constructor; intros K; try reflexivity; discriminate K.
Qed.

(** X10. On every run of the constructor that returns, the parameter is
    made after every secret lookup and every endpoint and before every role
    and every schedule: the calls before it make no role and no schedule,
    the calls after it look up no secret and make no endpoint and no further
    parameter. *)
Theorem parameter_between_endpoints_and_scheduling {Error : Type}
    (raises : list SdkCall -> SdkCall -> option Error) scope id props obj tr :
  construct raises scope id props = inr (obj, tr) ->
  exists before after,
    tr = before
         ++ StringParameter_new (child scope id) "ModelsParameter"
              (sp_props (modelsParameter obj))
         :: after
    /\ roles_made before = []
    /\ schedule_calls before = []
    /\ string_parameters before = []
    /\ secrets_looked_up after = []
    /\ endpoints_made after = []
    /\ string_parameters after = [].
Proof.
  intros H. apply construct_inr in H as [-> ->].
  exists (Construct_super scope id
          :: calls (hfTokenSecret_lookup (child scope id) props)
          ++ calls (FalconLite2_branch (child scope id) props [])
          ++ calls (Zephyr7b_branch (child scope id) props
                      (result (FalconLite2_branch (child scope id) props [])))),
    (calls (scheduling_block (child scope id) id props
              (models (result (Models_new scope id props))))).
  split.
  - rewrite Models_new_calls at 1. simpl. rewrite <- !app_assoc. reflexivity.
  - rewrite scheduling_block_calls, Models_new_models.
    unfold hfTokenSecret_lookup, FalconLite2_branch, Zephyr7b_branch.
    destruct (huggingfaceApiSecretArn (llms (config props))) as [arn|];
      [destruct (JS.truthy_string arn)|];
      destruct (includes _ SupportedSageMakerModels_FalconLite2),
        (includes _ SupportedSageMakerModels_Zephyr7b),
        (schedule_enabled (config props)); repeat split.
Qed.

(** X11. On every run of the constructor that returns, with sagemakerSchedule
    enabled the schedule calls are, model by model in the order of
    [this.models], the start schedule and then the stop schedule of the
    model's endpoint, each made below [this] with the construct's own id,
    the scheduler role and the configuration of the properties; otherwise
    there is none. *)
Theorem schedules_start_then_stop_per_model {Error : Type}
    (raises : list SdkCall -> SdkCall -> option Error) scope id props obj tr :
  construct raises scope id props = inr (obj, tr) ->
  schedule_calls tr
  = if schedule_enabled (config props)
    then flat_map (fun m =>
           [ createStartSchedule_call (child scope id) id (endpoint m)
               (scheduler_role (child scope id)) (config props);
             createStopSchedule_call (child scope id) id (endpoint m)
               (scheduler_role (child scope id)) (config props) ])
           (models obj)
    else [].
Proof.
  intros H. apply construct_inr in H as [-> ->].
  by_cases scope id props; reflexivity.
Qed.

(** X12. On every run of the constructor that returns, a configuration with
    no sagemakerSchedule, or one whose sagemakerSchedule has no enabled
    field or has it false, leads to no role and no schedule call. *)
Theorem no_scheduling_without_enabled {Error : Type}
    (raises : list SdkCall -> SdkCall -> option Error) scope id props obj tr :
  construct raises scope id props = inr (obj, tr) ->
  (sagemakerSchedule (llms (config props)) = None
   \/ exists s, sagemakerSchedule (llms (config props)) = Some s
                /\ enabled s <> Some true) ->
  roles_made tr = [] /\ schedule_calls tr = [].
Proof.
  intros H Off. apply construct_inr in H as [-> ->].
  assert (E : schedule_enabled (config props) = false).
  { unfold schedule_enabled. destruct Off as [ -> | (s & -> & Hs) ]; [reflexivity|].
    destruct (enabled s) as [[|]|]; congruence. }
  rewrite Models_new_roles.
  rewrite Models_new_calls, scheduling_block_calls, Models_new_models, E.
  rewrite andb_false_r.
  unfold hfTokenSecret_lookup, FalconLite2_branch, Zephyr7b_branch.
  destruct (huggingfaceApiSecretArn (llms (config props))) as [arn|];
    [destruct (JS.truthy_string arn)|];
    destruct (includes _ SupportedSageMakerModels_FalconLite2),
      (includes _ SupportedSageMakerModels_Zephyr7b); split; reflexivity.
Qed.

(** X13. For every model identifier, the endpoint name derived from it by
    the two split/join steps has the length of the identifier, holds neither
    "/" nor ".", is the identifier itself when that holds neither, and is
    left unchanged by deriving again. *)
Theorem derived_name_is_clean (s : string) :
  let derive := fun x =>
    JS.join (JS.split (JS.join (JS.split x "/") "-") ".") "-" in
  String.length (derive s) = String.length s
  /\ ~ In "/"%char (list_ascii_of_string (derive s))
  /\ ~ In "."%char (list_ascii_of_string (derive s))
  /\ (~ In "/"%char (list_ascii_of_string s) ->
      ~ In "."%char (list_ascii_of_string s) -> derive s = s)
  /\ derive (derive s) = derive s.
Proof.
  cbv beta zeta.
  assert (R : forall x,
    JS.join (JS.split (JS.join (JS.split x "/") "-") ".") "-" = replace_slash_dot x).
  { intros x. rewrite !join_split. apply replace_unit_twice. }
  rewrite !R. clear R.
  assert (C : forall c, (c = "/" \/ c = ".")%char ->
                ~ In c (list_ascii_of_string (replace_slash_dot s))).
  { intros c Hc. induction s as [|a s IH]; simpl; [tauto|].
    destruct (Ascii.eqb_spec a "/") as [->|N1]; simpl;
      [intros [K|K]; [destruct Hc; subst c; discriminate K | tauto]|].
    destruct (Ascii.eqb_spec a ".") as [->|N2]; simpl;
      [intros [K|K]; [destruct Hc; subst c; discriminate K | tauto]|].
    intros [K|K]; [destruct Hc; congruence | tauto]. }
  assert (I : forall x, ~ In "/"%char (list_ascii_of_string x) ->
                ~ In "."%char (list_ascii_of_string x) -> replace_slash_dot x = x).
  { induction x as [|a x IH]; simpl; [reflexivity|]. intros H1 H2.
    rewrite IH by tauto.
    destruct (Ascii.eqb_spec a "/") as [->|N1]; [tauto|].
    destruct (Ascii.eqb_spec a ".") as [->|N2]; [tauto|]. reflexivity. }
  assert (L : forall x, String.length (replace_slash_dot x) = String.length x).
  { induction x as [|a x IH]; simpl; congruence. }
  split; [apply L|].
  split; [apply C; auto|]. split; [apply C; auto|].
  split; [apply I|]. apply I; apply C; auto.
Qed.

(** X14. On every run of the constructor that returns, the secret, the
    endpoints, the parameter and the role it makes are all made below
    [this], under pairwise distinct ids. *)
Theorem construct_ids_are_distinct {Error : Type}
    (raises : list SdkCall -> SdkCall -> option Error) scope id props obj tr :
  construct raises scope id props = inr (obj, tr) ->
  Forall (fun c => fst c = child scope id) (constructs_made tr)
  /\ NoDup (map snd (constructs_made tr)).
Proof.
  intros H. apply construct_inr in H as [-> ->].
  by_cases scope id props; simpl; split; repeat constructor; simpl;
    intuition discriminate.
Qed.

Lemma split_scan_skip (sep p s piece : string) :
  JS.split_scan sep (p ++ s) (String.length p) piece = JS.split_scan sep s 0 piece.
Proof. induction p as [|a p IH]; simpl; [reflexivity | exact IH]. Qed.

Lemma startsWith_prefix (sep s : string) :
  JS.startsWith s sep = true -> exists rest, s = (sep ++ rest)%string.
Proof.
  revert s. induction sep as [|a sep IH]; intros s; simpl.
  - intros _. exists s. reflexivity.
  - destruct s as [|b s]; [discriminate|].
    intros H. apply andb_true_iff in H as [E H].
    apply Ascii.eqb_eq in E. subst b.
    destruct (IH _ H) as [rest ->]. exists rest. reflexivity.
Qed.

Lemma append_length (a b : string) :
  String.length (a ++ b) = String.length a + String.length b.
Proof. induction a as [|x a IH]; simpl; [reflexivity | now rewrite IH]. Qed.

Lemma join_split_scan_same (sep : string) (n : nat) :
  sep <> EmptyString ->
  forall s piece, String.length s <= n ->
  JS.join (JS.split_scan sep s 0 piece) sep = (piece ++ s)%string.
Proof.
  intros Hsep. induction n as [|n IH]; intros s piece Hn.
  - destruct s; [|simpl in Hn; lia]. simpl. now rewrite append_empty_r.
  - destruct s as [|c s]; [simpl; now rewrite append_empty_r|].
    cbn [JS.split_scan].
    destruct (JS.startsWith (String c s) sep) eqn:E.
    + apply startsWith_prefix in E as [rest E].
      destruct sep as [|a sep]; [congruence|].
      simpl in E. inversion E; subst c s.
      cbn [String.length]. rewrite Nat.sub_succ, Nat.sub_0_r, split_scan_skip.
      rewrite join_cons by apply split_scan_nonempty.
      rewrite IH.
      * simpl. reflexivity.
      * simpl in Hn. rewrite append_length in Hn. lia.
    + rewrite IH by (simpl in Hn; lia).
      rewrite append_assoc. reflexivity.
Qed.

Lemma join_split_units (s : string) : JS.join (JS.split_units s) EmptyString = s.
Proof.
  induction s as [|c s IH]; [reflexivity|].
  cbn [JS.split_units]. destruct (JS.split_units s) as [|x l] eqn:E.
  - simpl in *. now rewrite <- IH.
  - rewrite join_cons by discriminate. rewrite IH. reflexivity.
Qed.

(** X15. For every string and every separator, the empty one included,
    splitting the string at the separator and joining the pieces with the
    same separator gives the string back. *)
Theorem split_then_join_is_identity (s sep : string) :
  JS.join (JS.split s sep) sep = s.
Proof.
  unfold JS.split. destruct sep as [|a sep].
  - apply join_split_units.
  - rewrite (join_split_scan_same (String a sep) (String.length s)) by (congruence || lia).
    reflexivity.
Qed.

End ModelsConstruct.

(** ** The properties at concrete configurations *)

Abbreviation demo_construct :=
  (construct Demo.Text Demo.LangChain Demo.FalconLite2 Demo.Zephyr7b Demo.endpointName_of).

Abbreviation demo_returns props :=
  (construct_returns Demo.Text Demo.LangChain Demo.FalconLite2 Demo.Zephyr7b
     Demo.endpointName_of Demo.no_error Demo.app "Models" props
     (fun _ _ => eq_refl)).

(** C1 at [Demo.both]: two objects, each with the seven keys. *)
Lemma parameter_shape_witness :
  exists obj tr,
    demo_construct Demo.no_error Demo.app "Models" Demo.both = inr (obj, tr)
    /\ exists objs,
         objs = map (descriptor_json Demo.endpointName_of) (models obj)
         /\ stringValue (sp_props (modelsParameter obj)) = JSON.stringify (JSON.Array objs)
         /\ Forall (fun o => exists ps,
                       o = JSON.Object ps /\ JSON.written_keys ps = descriptor_keys) objs.
Proof.
  do 2 eexists. split; [exact (demo_returns Demo.both)|].
  eapply parameter_shape; [|exact (demo_returns Demo.both)].
  intros e _. discriminate.
Defined.

(** C5 at [Demo.both]. *)
Lemma parameter_serializes_models_witness :
  exists obj tr,
    demo_construct Demo.no_error Demo.app "Models" Demo.both = inr (obj, tr)
    /\ stringValue (sp_props (modelsParameter obj))
       = JSON.stringify
           (JSON.Array (map (descriptor_json Demo.endpointName_of) (models obj)))
    /\ string_parameters tr
       = [("ModelsParameter", stringValue (sp_props (modelsParameter obj)))].
Proof.
  do 2 eexists. split; [exact (demo_returns Demo.both)|].
  pose proof (parameter_serializes_models _ _ _ _ _ _ _ _ _ _ _
                (demo_returns Demo.both)) as (V & P & _).
  split; [exact V | exact P].
Defined.

(** C2 at [Demo.zephyr_only]: one object for Zephyr7b, none for FalconLite2. *)
Lemma parameter_has_one_descriptor_per_flag_witness :
  exists obj tr objs ps,
    demo_construct Demo.no_error Demo.app "Models" Demo.zephyr_only = inr (obj, tr)
    /\ stringValue (sp_props (modelsParameter obj)) = JSON.stringify (JSON.Array objs)
    /\ named "jumpstart-Amazon-FalconLite2" objs = []
    /\ named "jumpstart-HuggingFaceH4-zephyr-7b-beta" objs = [JSON.Object ps]
    /\ JSON.member "inputModalities" ps = Some (JSON.Array [JSON.Str "TEXT"])
    /\ JSON.member "outputModalities" ps = Some (JSON.Array [JSON.Str "TEXT"])
    /\ JSON.member "interface" ps = Some (JSON.Str "langchain").
Proof.
  destruct (parameter_has_one_descriptor_per_flag _ _ _ _ _ _ _ _ _ _ _
              (demo_returns Demo.zephyr_only))
    as (objs & _ & V & _ & NoF & Z & _).
  destruct (Z eq_refl) as (ps & N & I & O & L).
  exists (result (Models_new Demo.Text Demo.LangChain Demo.FalconLite2 Demo.Zephyr7b
                    Demo.endpointName_of Demo.app "Models" Demo.zephyr_only)),
    (calls (Models_new Demo.Text Demo.LangChain Demo.FalconLite2 Demo.Zephyr7b
              Demo.endpointName_of Demo.app "Models" Demo.zephyr_only)),
    objs, ps.
  split; [exact (demo_returns Demo.zephyr_only)|].
  split; [exact V|]. split; [exact (NoF eq_refl)|].
  split; [exact N|]. split; [exact I|]. split; [exact O | exact L].
Defined.

(** C3 at the identifier of Falcon-Lite2 and at [Demo.both]. *)
Lemma name_derived_from_model_id_witness :
  JS.join (JS.split (JS.join (JS.split "Amazon/FalconLite2" "/") "-") ".") "-"
  = replace_slash_dot "Amazon/FalconLite2"
  /\ exists obj tr,
       demo_construct Demo.no_error Demo.app "Models" Demo.both = inr (obj, tr)
       /\ map (fun d => (model (jse_props (endpoint_owner (endpoint d))), name d))
              (models obj)
          = [ (HUGGINGFACE_LLM_AMAZON_FALCONLITE2_1_1_0, "jumpstart-Amazon-FalconLite2");
              (HUGGINGFACE_LLM_HUGGINGFACEH4_ZEPHYR_7B_BETA_1_1_0,
               "jumpstart-HuggingFaceH4-zephyr-7b-beta") ].
Proof.
  destruct (name_derived_from_model_id Demo.Text Demo.LangChain Demo.FalconLite2
              Demo.Zephyr7b Demo.endpointName_of) as [R N].
  split; [apply R|].
  do 2 eexists. split; [exact (demo_returns Demo.both)|].
  exact (N _ _ _ _ _ _ _ (demo_returns Demo.both)).
Defined.

(** C4 as stated fails at [Demo.no_model]: sagemakerSchedule is enabled, the
    constructor returns, and no role and no schedule is made. *)
Lemma scheduler_role_needs_models :
  schedule_enabled (config Demo.no_model) = true
  /\ (exists obj tr,
        demo_construct Demo.no_error Demo.app "Models" Demo.no_model = inr (obj, tr)
        /\ roles_made tr = []
        /\ start_schedules tr = []
        /\ stop_schedules tr = [])
  /\ ~ (forall props obj tr,
          schedule_enabled (config props) = true ->
          demo_construct Demo.no_error Demo.app "Models" props = inr (obj, tr) ->
          roles_made tr <> []).
Proof.
  split; [reflexivity|]. split.
  - do 2 eexists. split; [exact (demo_returns Demo.no_model)|]. repeat split.
  - intros claim.
    exact (claim Demo.no_model _ _ eq_refl (demo_returns Demo.no_model) eq_refl).
Qed.

(** C4, amended, at [Demo.both]: one role, two start and two stop schedules. *)
Lemma schedules_when_enabled_and_models_witness :
  exists obj tr,
    demo_construct Demo.no_error Demo.app "Models" Demo.both = inr (obj, tr)
    /\ roles_made tr = [scheduler_role (child Demo.app "Models")]
    /\ start_schedules tr
       = map (fun m => (endpoint m, scheduler_role (child Demo.app "Models"))) (models obj)
    /\ stop_schedules tr
       = map (fun m => (endpoint m, scheduler_role (child Demo.app "Models"))) (models obj)
    /\ NoDup (map endpoint (models obj))
    /\ List.length (models obj) = 2.
Proof.
  do 2 eexists. split; [exact (demo_returns Demo.both)|].
  destruct (schedules_when_enabled_and_models _ _ _ _ _ _ _ _ _ _ _
              (demo_returns Demo.both)) as [On _].
  destruct (On eq_refl ltac:(discriminate)) as (R & S & T & D).
  split; [exact R|]. split; [exact S|]. split; [exact T|]. split; [exact D | reflexivity].
Defined.



(** C10 at [Demo.both] and the same configuration without the secret ARN. *)
Lemma secret_arn_without_influence_witness :
  exists obj1 tr1 obj2 tr2,
    demo_construct Demo.no_error Demo.app "Models" Demo.both = inr (obj1, tr1)
    /\ demo_construct Demo.no_error Demo.app "Models"
         (Demo.props_of [Demo.Zephyr7b; Demo.FalconLite2] None true) = inr (obj2, tr2)
    /\ models obj1 = models obj2
    /\ stringValue (sp_props (modelsParameter obj1))
       = stringValue (sp_props (modelsParameter obj2)).
Proof.
  do 4 eexists. split; [exact (demo_returns Demo.both)|].
  split; [exact (demo_returns (Demo.props_of [Demo.Zephyr7b; Demo.FalconLite2] None true))|].
  eapply (secret_arn_without_influence _ _ _ _ _ Demo.no_error Demo.no_error
            Demo.app "Models" Demo.both
            (Demo.props_of [Demo.Zephyr7b; Demo.FalconLite2] None true));
    [reflexivity | reflexivity | exact (demo_returns Demo.both)
    | exact (demo_returns (Demo.props_of [Demo.Zephyr7b; Demo.FalconLite2] None true))].
Defined.

(** C7 at [Demo.malformed_arn], against an SDK that refuses malformed ARNs:
    the run ends with the error of the secret lookup, its second call. *)
Lemma errors_propagate_witness :
  demo_construct Demo.refuses_malformed_arn Demo.app "Models" Demo.malformed_arn
  = inl "ARNs must start with arn: and have at least 6 components".
Proof.
  destruct (errors_propagate Demo.Text Demo.LangChain Demo.FalconLite2 Demo.Zephyr7b
              Demo.endpointName_of Demo.refuses_malformed_arn Demo.app "Models"
              Demo.malformed_arn) as (_ & _ & P & _).
  refine (P [Construct_super Demo.app "Models"]
            (Secret_fromSecretCompleteArn (child Demo.app "Models") "HFTokenSecret"
               "hf-token")
            _ _ _ _ _).
  - reflexivity.
  - simpl. auto.
  - reflexivity.
Defined.


(** C9 at [Demo.no_model], where sagemakerSchedule is enabled. *)
Lemma nothing_without_flags_witness :
  exists obj tr,
    demo_construct Demo.no_error Demo.app "Models" Demo.no_model = inr (obj, tr)
    /\ schedule_enabled (config Demo.no_model) = true
    /\ models obj = []
    /\ stringValue (sp_props (modelsParameter obj)) = "[]"
    /\ roles_made tr = []
    /\ start_schedules tr = []
    /\ stop_schedules tr = [].
Proof.
  do 2 eexists. split; [exact (demo_returns Demo.no_model)|].
  split; [reflexivity|].
  exact (nothing_without_flags _ _ _ _ _ _ _ _ _ _ _
           (demo_returns Demo.no_model) eq_refl eq_refl).
Defined.

(** The value of the parameter at [Demo.zephyr_only], written out. *)
Example zephyr_only_parameter_value :
  stringValue (sp_props (modelsParameter
    (result (Models_new Demo.Text Demo.LangChain Demo.FalconLite2 Demo.Zephyr7b
               Demo.endpointName_of Demo.app "Models" Demo.zephyr_only))))
  = ("[{" ++ JSON.quote "name" ++ ":" ++ JSON.quote "jumpstart-HuggingFaceH4-zephyr-7b-beta"
     ++ "," ++ JSON.quote "endpoint" ++ ":"
     ++ JSON.quote "jumpstart-HuggingFaceH4-zephyr-7b-beta"
     ++ "," ++ JSON.quote "responseStreamingSupported" ++ ":false"
     ++ "," ++ JSON.quote "inputModalities" ++ ":[" ++ JSON.quote "TEXT" ++ "]"
     ++ "," ++ JSON.quote "outputModalities" ++ ":[" ++ JSON.quote "TEXT" ++ "]"
     ++ "," ++ JSON.quote "interface" ++ ":" ++ JSON.quote "langchain"
     ++ "," ++ JSON.quote "ragSupported" ++ ":true}]")%string.
Proof. reflexivity. Qed.

(** An endpoint without a name loses its [endpoint] key in the parameter. *)
Example unnamed_endpoint_drops_key :
  JSON.written_keys
    [ ("name", Some (JSON.Str "n")); ("endpoint", option_map JSON.Str None);
      ("ragSupported", Some (JSON.Bool true)) ]
  = ["name"; "ragSupported"].
Proof. reflexivity. Qed.

(** ** The further properties at concrete configurations *)

(** X1 at [Demo.both]. *)
Lemma endpoints_are_those_of_models_witness :
  exists obj tr,
    demo_construct Demo.no_error Demo.app "Models" Demo.both = inr (obj, tr)
    /\ endpoints_made tr = map (fun m => endpoint_owner (endpoint m)) (models obj)
    /\ Forall (fun e => jse_scope e = child Demo.app "Models"
                        /\ instanceCount (jse_props e) = Some 3%Z)
              (endpoints_made tr).
Proof.
  do 2 eexists. split; [exact (demo_returns Demo.both)|].
  exact (endpoints_are_those_of_models _ _ _ _ _ _ _ _ _ _ _ (demo_returns Demo.both)).
Defined.

(** X2 at [Demo.both]. *)
Lemma name_is_prefixed_endpoint_name_witness :
  exists obj tr,
    demo_construct Demo.no_error Demo.app "Models" Demo.both = inr (obj, tr)
    /\ Forall (fun m => exists n,
                 endpointName (jse_props (endpoint_owner (endpoint m))) = Some n
                 /\ name m = ("jumpstart-" ++ n)%string)
              (models obj).
Proof.
  do 2 eexists. split; [exact (demo_returns Demo.both)|].
  exact (name_is_prefixed_endpoint_name _ _ _ _ _ _ _ _ _ _ _ (demo_returns Demo.both)).
Defined.

(** X3 at [Demo.both]. *)
Lemma serialized_name_is_endpoint_name_witness :
  exists obj tr,
    demo_construct Demo.no_error Demo.app "Models" Demo.both = inr (obj, tr)
    /\ Forall (fun o => exists ps n,
                 o = JSON.Object ps
                 /\ JSON.member "endpoint" ps = Some (JSON.Str n)
                 /\ JSON.member "name" ps = Some (JSON.Str n))
              (map (descriptor_json Demo.endpointName_of) (models obj)).
Proof.
  do 2 eexists. split; [exact (demo_returns Demo.both)|].
  refine (serialized_name_is_endpoint_name _ _ _ _ _ _ _ _ _ _ _ _
            (demo_returns Demo.both)).
  intros e n E. simpl. rewrite E. reflexivity.
Defined.

(** X4 at [Demo.both]: the two endpoint roles, then the scheduler role. *)
Lemma every_role_is_suppressed_witness :
  exists obj tr,
    demo_construct Demo.no_error Demo.app "Models" Demo.both = inr (obj, tr)
    /\ suppressions_added tr
       = map (fun r => (r, ["AwsSolutions-IAM4"; "AwsSolutions-IAM5"], true))
           [ role (falcon_lite_2_endpoint (child Demo.app "Models"));
             role (zephyr7b_endpoint (child Demo.app "Models"));
             scheduler_role (child Demo.app "Models") ].
Proof.
  do 2 eexists. split; [exact (demo_returns Demo.both)|].
  exact (every_role_is_suppressed _ _ _ _ _ _ _ _ _ _ _ (demo_returns Demo.both)).
Defined.

(** X5 at [Demo.both], and at the same sagemaker list with an empty ARN. *)
Lemma secret_lookup_needs_nonempty_arn_witness :
  (exists obj tr,
     demo_construct Demo.no_error Demo.app "Models" Demo.both = inr (obj, tr)
     /\ secrets_looked_up tr
        = [fromSecretCompleteArn (child Demo.app "Models") "HFTokenSecret"
             "arn:aws:secretsmanager:eu-west-1:111122223333:secret:hf-token-AbCdEf"])
  /\ (exists obj tr,
        demo_construct Demo.refuses_secret Demo.app "Models"
          Demo.empty_arn = inr (obj, tr)
        /\ secrets_looked_up tr = []).
Proof.
  split; do 2 eexists.
  - split; [exact (demo_returns Demo.both)|].
    exact (proj1 (secret_lookup_needs_nonempty_arn _ _ _ _ _ _ _ _ _ _ _
                    (demo_returns Demo.both))
             _ eq_refl ltac:(discriminate)).
  - split; [reflexivity|].
    refine (proj2 (secret_lookup_needs_nonempty_arn Demo.Text Demo.LangChain
                     Demo.FalconLite2 Demo.Zephyr7b Demo.endpointName_of
                     Demo.refuses_secret Demo.app "Models"
                     Demo.empty_arn
                     _ _ eq_refl)
              (or_intror eq_refl)).
Defined.

(** X6 at [Demo.both] and its sagemaker list reordered, with a repetition. *)
Lemma only_membership_of_flags_matters_witness :
  exists obj1 tr1 obj2 tr2,
    demo_construct Demo.no_error Demo.app "Models" Demo.both = inr (obj1, tr1)
    /\ demo_construct Demo.no_error Demo.app "Models"
         Demo.reordered
       = inr (obj2, tr2)
    /\ models obj1 = models obj2
    /\ stringValue (sp_props (modelsParameter obj1))
       = stringValue (sp_props (modelsParameter obj2)).
Proof.
  do 4 eexists. split; [exact (demo_returns Demo.both)|].
  split; [exact (demo_returns
                   Demo.reordered)|].
  eapply (only_membership_of_flags_matters _ _ _ _ _ Demo.no_error Demo.no_error
            Demo.app "Models" Demo.both
            Demo.reordered);
    [ | exact (demo_returns Demo.both)
      | exact (demo_returns
                 Demo.reordered) ].
  intros x. simpl. tauto.
Defined.

(** X7 at [Demo.zephyr_only]: a model, and a value that is not "[]". *)
Lemma empty_parameter_iff_no_flag_witness :
  exists obj tr,
    demo_construct Demo.no_error Demo.app "Models" Demo.zephyr_only = inr (obj, tr)
    /\ (stringValue (sp_props (modelsParameter obj)) = "[]" <-> models obj = [])
    /\ models obj <> [].
Proof.
  do 2 eexists. split; [exact (demo_returns Demo.zephyr_only)|].
  split; [|discriminate].
  exact (proj1 (empty_parameter_iff_no_flag _ _ _ _ _ _ _ _ _ _ _
                  (demo_returns Demo.zephyr_only))).
Defined.

(** X8 at [Demo.both]. *)
Lemma at_most_two_distinct_models_witness :
  exists obj tr,
    demo_construct Demo.no_error Demo.app "Models" Demo.both = inr (obj, tr)
    /\ List.length (models obj) <= 2
    /\ NoDup (map name (models obj))
    /\ NoDup (map endpoint (models obj)).
Proof.
  do 2 eexists. split; [exact (demo_returns Demo.both)|].
  exact (at_most_two_distinct_models _ _ _ _ _ _ _ _ _ _ _ (demo_returns Demo.both)).
Defined.

(** X9 at [Demo.both]. *)
Lemma descriptors_are_text_langchain_rag_witness :
  exists obj tr,
    demo_construct Demo.no_error Demo.app "Models" Demo.both = inr (obj, tr)
    /\ Forall (fun m =>
                 ragSupported m = true
                 /\ inputModalities m = [Demo.Text]
                 /\ outputModalities m = [Demo.Text]
                 /\ interface m = Demo.LangChain
                 /\ (responseStreamingSupported m = true
                     <-> name m = "jumpstart-Amazon-FalconLite2"))
              (models obj).
Proof.
  do 2 eexists. split; [exact (demo_returns Demo.both)|].
  exact (descriptors_are_text_langchain_rag _ _ _ _ _ _ _ _ _ _ _
           (demo_returns Demo.both)).
Defined.

(** X10 at [Demo.both]. *)
Lemma parameter_between_endpoints_and_scheduling_witness :
  exists obj tr before after,
    demo_construct Demo.no_error Demo.app "Models" Demo.both = inr (obj, tr)
    /\ tr = before
            ++ StringParameter_new (child Demo.app "Models") "ModelsParameter"
                 (sp_props (modelsParameter obj))
            :: after
    /\ roles_made before = []
    /\ schedule_calls before = []
    /\ string_parameters before = []
    /\ secrets_looked_up after = []
    /\ endpoints_made after = []
    /\ string_parameters after = [].
Proof.
  destruct (parameter_between_endpoints_and_scheduling _ _ _ _ _ _ _ _ _ _ _
              (demo_returns Demo.both))
    as (before & after & T & R & S & P & K & E & Q).
  do 2 eexists. exists before, after.
  split; [exact (demo_returns Demo.both)|].
  split; [exact T|]. split; [exact R|]. split; [exact S|]. split; [exact P|].
  split; [exact K|]. split; [exact E | exact Q].
Defined.

(** X11 at [Demo.both]: start and stop for Falcon-Lite2, then for Zephyr7b. *)
Lemma schedules_start_then_stop_per_model_witness :
  exists obj tr,
    demo_construct Demo.no_error Demo.app "Models" Demo.both = inr (obj, tr)
    /\ schedule_calls tr
       = flat_map (fun m =>
           [ createStartSchedule_call (child Demo.app "Models") "Models" (endpoint m)
               (scheduler_role (child Demo.app "Models")) (config Demo.both);
             createStopSchedule_call (child Demo.app "Models") "Models" (endpoint m)
               (scheduler_role (child Demo.app "Models")) (config Demo.both) ])
           (models obj).
Proof.
  do 2 eexists. split; [exact (demo_returns Demo.both)|].
  exact (schedules_start_then_stop_per_model _ _ _ _ _ _ _ _ _ _ _
           (demo_returns Demo.both)).
Defined.

(** X12 at [Demo.never_scheduled]. *)
Lemma no_scheduling_without_enabled_witness :
  exists obj tr,
    demo_construct Demo.no_error Demo.app "Models" Demo.never_scheduled = inr (obj, tr)
    /\ roles_made tr = [] /\ schedule_calls tr = [].
Proof.
  do 2 eexists. split; [exact (demo_returns Demo.never_scheduled)|].
  exact (no_scheduling_without_enabled _ _ _ _ _ _ _ _ _ _ _
           (demo_returns Demo.never_scheduled) (or_introl eq_refl)).
Defined.

(** X14 at [Demo.both]: five constructs below the app's Models. *)
Lemma construct_ids_are_distinct_witness :
  exists obj tr,
    demo_construct Demo.no_error Demo.app "Models" Demo.both = inr (obj, tr)
    /\ Forall (fun c => fst c = child Demo.app "Models") (constructs_made tr)
    /\ NoDup (map snd (constructs_made tr))
    /\ List.length (constructs_made tr) = 5.
Proof.
  do 2 eexists. split; [exact (demo_returns Demo.both)|].
  destruct (construct_ids_are_distinct _ _ _ _ _ _ _ _ _ _ _ (demo_returns Demo.both))
    as [F N].
  split; [exact F|]. split; [exact N | reflexivity].
Defined.

(** A computation with a [Try] can end without the error its call raised:
    the language has what the constructor does not use. *)
Example try_swallows_the_error :
  run Demo.always_raises
    (Try (call (ManagedPolicy_fromAwsManagedPolicyName "AmazonSageMakerFullAccess"))
         (Ret tt)
         (fun _ => Ret true))
    []
  = inr (true, []).
Proof. reflexivity. Qed.

(** The handler of a [Try] runs after the calls of the body that went
    through, and the statements after the block run after both. *)
Example try_resumes_after_the_body :
  run Demo.refuses_secret
    (Try (call (ServicePrincipal_new_call "scheduler.amazonaws.com") ;;
          Secret_fromArn Demo.app "HFTokenSecret" "hf-token" ;;
          Ret false)
         (call (ManagedPolicy_fromAwsManagedPolicyName "AmazonSageMakerFullAccess") ;;
          Ret true)
         (fun caught => call (Construct_super Demo.app "Models") ;; Ret caught))
    []
  = inr (true,
         [ ServicePrincipal_new_call "scheduler.amazonaws.com";
           ManagedPolicy_fromAwsManagedPolicyName "AmazonSageMakerFullAccess";
           Construct_super Demo.app "Models" ]).
Proof. reflexivity. Qed.
